(** * NTupleReader: a shallow embedding of Tools/NTupleReader.h

    The reader keeps two maps from column names to type-erased handles
    (scalar columns in [branchMap_], collection columns in
    [branchVecMap_]), a map from names to demangled type names
    ([typeMap_]) and the list of registered callables.  The C++ code
    works on raw pointers, so the embedding carries an explicit heap of
    objects next to the reader's fields, together with the type each
    object was allocated as (what [delete] and a write through a cast
    pointer depend on), and every member function is a computation in a
    state-and-exception monad over them. *)

From stdpp Require Import gmap strings list fin_maps.
From Stdlib Require Import ZArith Ascii String.

Open Scope string_scope.
Open Scope Z_scope.

(** ** Type identities ([std::type_index]) *)

Module Ty.

Inductive type_index : Type :=
| nullptr_t
| bool_t
| char_t
| int_t
| unsigned_int_t
| float_t
| double_t
| string_t
| TLorentzVector_t
| vector_t (elem : type_index)
| map_t (key val : type_index)
| pointer_t (pointee : type_index).

#[global] Instance type_index_eq_dec : EqDecision type_index.
Proof. solve_decision. Defined.

(** [std::remove_pointer<T>::type]: strips one level of pointer. *)
Definition remove_pointer (t : type_index) : type_index :=
  match t with
  | pointer_t u => u
  | _ => t
  end.

Fixpoint ends_with_gt (s : string) : bool :=
  match s with
  | EmptyString => false
  | String c EmptyString => Ascii.eqb c ">"
  | String _ rest => ends_with_gt rest
  end.

(** Closing a template argument list: the demangler puts a space between
    two closing brackets. *)
Definition close_angle (s : string) : string :=
  if ends_with_gt s then s +:+ " >" else s +:+ ">".

(** [demangle<T>()]: the name [abi::__cxa_demangle] prints for
    [typeid(T).name()] (libstdc++, C++11 ABI), the default template
    arguments of the standard containers spelled out as it spells
    them. *)
Fixpoint demangle (t : type_index) : string :=
  match t with
  | nullptr_t => "decltype(nullptr)"
  | bool_t => "bool"
  | char_t => "char"
  | int_t => "int"
  | unsigned_int_t => "unsigned int"
  | float_t => "float"
  | double_t => "double"
  | string_t =>
      "std::__cxx11::basic_string<char, std::char_traits<char>, std::allocator<char> >"
  | TLorentzVector_t => "TLorentzVector"
  | vector_t e =>
      "std::vector<" +:+ demangle e +:+ ", std::allocator<" +:+
      close_angle (demangle e) +:+ " >"
  | map_t k v =>
      "std::map<" +:+ demangle k +:+ ", " +:+ demangle v +:+ ", std::less<" +:+
      close_angle (demangle k) +:+ ", std::allocator<std::pair<" +:+
      demangle k +:+ " const, " +:+ close_angle (demangle v) +:+ " > >"
  | pointer_t u => demangle u +:+ "*"
  end.

End Ty.

Import Ty.

(** ** The heap *)

Definition addr := N.
Definition nullptr : addr := 0%N.

(** A callable handed to [registerFunction] is identified by its code
    pointer. *)
Definition Callable := nat.

(** What lives at an address. *)
Inductive object : Type :=
| OValue (v : Z)                (* a scalar *)
| OPointer (p : addr)           (* a cell holding a pointer *)
| OVector (xs : list Z)         (* a heap-allocated collection *)
| ODeleter (vec : bool) (T : type_index)
                                (* deleter<T> (false) or vec_deleter<T> (true) *)
| OFuncWrapper (func_ : Callable).

#[global] Instance object_eq_dec : EqDecision object.
Proof. solve_decision. Defined.

(** [new T()]: the value-initialised object of type [T]. *)
Definition value_init (t : type_index) : object :=
  match t with
  | pointer_t _ => OPointer nullptr
  | vector_t _ | map_t _ _ => OVector []
  | _ => OValue 0
  end.

Record Memory := mkMemory {
  heap : gmap addr object;
  brk : addr                     (* next address handed out by [new] *)
}.

(** ** Handles *)

Record Handle := mkHandle {
  ptr : addr;
  deleter : addr;                (* deleter_base*, null when unowned *)
  type : type_index
}.

#[global] Instance Handle_eq_dec : EqDecision Handle.
Proof. solve_decision. Defined.

(** [Handle()] *)
Definition Handle_default : Handle := mkHandle nullptr nullptr nullptr_t.

(** ** The external row source ([TTree], [TBranch]) *)

Record TBranch := mkTBranch {
  br_name : string;
  br_isvec : bool;               (* declared storage category *)
  br_type : type_index;          (* declared element (or scalar) type *)
  br_entries : list object       (* one entry per row *)
}.

Record TTree := mkTTree {
  branches : list TBranch;
  status : gset string;          (* columns marked active *)
  address : gmap string addr     (* where each column is delivered *)
}.

(** ** The reader *)

Record SATException := mkSATException { message : string }.

Record NTupleReader := mkNTupleReader {
  tree_ : TTree;
  nevt_ : Z;
  evtProcessed_ : Z;
  isUpdateDisabled_ : bool;
  reThrow_ : bool;
  convertHackActive_ : bool;
  prefix_ : string;
  branchMap_ : gmap string Handle;
  branchVecMap_ : gmap string Handle;
  functionVec_ : list addr;      (* std::vector<FuncWrapper*> *)
  typeMap_ : gmap string string;
  activeBranches_ : gset string
}.

(** The whole machine: the reader's fields, the heap they point into,
    what [SATException::print] has written so far, and the type each
    data object was allocated as ([new T] records [T] for the address it
    hands out; the entry of a dead object is never consulted). *)
Record World := mkWorld {
  reader : NTupleReader;
  memory : Memory;
  printed : list SATException;
  dyntype : gmap addr type_index
}.

Definition set_tree_ (f : TTree -> TTree) (s : NTupleReader) : NTupleReader :=
  mkNTupleReader (f (tree_ s)) (nevt_ s) (evtProcessed_ s) (isUpdateDisabled_ s)
    (reThrow_ s) (convertHackActive_ s) (prefix_ s) (branchMap_ s)
    (branchVecMap_ s) (functionVec_ s) (typeMap_ s) (activeBranches_ s).

Definition set_branchMap_ (f : gmap string Handle -> gmap string Handle)
    (s : NTupleReader) : NTupleReader :=
  mkNTupleReader (tree_ s) (nevt_ s) (evtProcessed_ s) (isUpdateDisabled_ s)
    (reThrow_ s) (convertHackActive_ s) (prefix_ s) (f (branchMap_ s))
    (branchVecMap_ s) (functionVec_ s) (typeMap_ s) (activeBranches_ s).

Definition set_branchVecMap_ (f : gmap string Handle -> gmap string Handle)
    (s : NTupleReader) : NTupleReader :=
  mkNTupleReader (tree_ s) (nevt_ s) (evtProcessed_ s) (isUpdateDisabled_ s)
    (reThrow_ s) (convertHackActive_ s) (prefix_ s) (branchMap_ s)
    (f (branchVecMap_ s)) (functionVec_ s) (typeMap_ s) (activeBranches_ s).

Definition set_functionVec_ (f : list addr -> list addr)
    (s : NTupleReader) : NTupleReader :=
  mkNTupleReader (tree_ s) (nevt_ s) (evtProcessed_ s) (isUpdateDisabled_ s)
    (reThrow_ s) (convertHackActive_ s) (prefix_ s) (branchMap_ s)
    (branchVecMap_ s) (f (functionVec_ s)) (typeMap_ s) (activeBranches_ s).

Definition set_typeMap_ (f : gmap string string -> gmap string string)
    (s : NTupleReader) : NTupleReader :=
  mkNTupleReader (tree_ s) (nevt_ s) (evtProcessed_ s) (isUpdateDisabled_ s)
    (reThrow_ s) (convertHackActive_ s) (prefix_ s) (branchMap_ s)
    (branchVecMap_ s) (functionVec_ s) (f (typeMap_ s)) (activeBranches_ s).

Definition set_evtProcessed_ (n : Z) (s : NTupleReader) : NTupleReader :=
  mkNTupleReader (tree_ s) (nevt_ s) n (isUpdateDisabled_ s)
    (reThrow_ s) (convertHackActive_ s) (prefix_ s) (branchMap_ s)
    (branchVecMap_ s) (functionVec_ s) (typeMap_ s) (activeBranches_ s).

Definition set_reThrow_ (b : bool) (s : NTupleReader) : NTupleReader :=
  mkNTupleReader (tree_ s) (nevt_ s) (evtProcessed_ s) (isUpdateDisabled_ s)
    b (convertHackActive_ s) (prefix_ s) (branchMap_ s)
    (branchVecMap_ s) (functionVec_ s) (typeMap_ s) (activeBranches_ s).

Definition set_convertHackActive_ (b : bool) (s : NTupleReader) : NTupleReader :=
  mkNTupleReader (tree_ s) (nevt_ s) (evtProcessed_ s) (isUpdateDisabled_ s)
    (reThrow_ s) b (prefix_ s) (branchMap_ s)
    (branchVecMap_ s) (functionVec_ s) (typeMap_ s) (activeBranches_ s).

Definition set_prefix_ (p : string) (s : NTupleReader) : NTupleReader :=
  mkNTupleReader (tree_ s) (nevt_ s) (evtProcessed_ s) (isUpdateDisabled_ s)
    (reThrow_ s) (convertHackActive_ s) p (branchMap_ s)
    (branchVecMap_ s) (functionVec_ s) (typeMap_ s) (activeBranches_ s).

Definition set_reader (f : NTupleReader -> NTupleReader) (w : World) : World :=
  mkWorld (f (reader w)) (memory w) (printed w) (dyntype w).

Definition set_memory (f : Memory -> Memory) (w : World) : World :=
  mkWorld (reader w) (f (memory w)) (printed w) (dyntype w).

Definition set_printed (f : list SATException -> list SATException)
    (w : World) : World :=
  mkWorld (reader w) (memory w) (f (printed w)) (dyntype w).

Definition set_dyntype (f : gmap addr type_index -> gmap addr type_index)
    (w : World) : World :=
  mkWorld (reader w) (memory w) (printed w) (f (dyntype w)).

(** ** Computations: state, C++ exceptions, undefined behaviour *)

Inductive outcome (A : Type) : Type :=
| Return (a : A)
| Throw (e : SATException)
| Undefined.                     (* the C++ standard gives the call no meaning *)

Arguments Return {A} a.
Arguments Throw {A} e.
Arguments Undefined {A}.

Definition M (A : Type) : Type := World -> outcome A * World.

Definition ret {A} (a : A) : M A := fun w => (Return a, w).

Definition bind {A B} (m : M A) (k : A -> M B) : M B :=
  fun w =>
    match m w with
    | (Return a, w') => k a w'
    | (Throw e, w') => (Throw e, w')
    | (Undefined, w') => (Undefined, w')
    end.

Definition throw {A} (e : SATException) : M A := fun w => (Throw e, w).
Definition undefined {A} : M A := fun w => (Undefined, w).

(** [try { m } catch(const SATException& e) { h e }] *)
Definition try_catch {A} (m : M A) (h : SATException -> M A) : M A :=
  fun w =>
    match m w with
    | (Throw e, w') => h e w'
    | r => r
    end.

Definition gets {A} (f : NTupleReader -> A) : M A := fun w => (Return (f (reader w)), w).
Definition modify (f : NTupleReader -> NTupleReader) : M unit :=
  fun w => (Return tt, set_reader f w).

Notation "'do' x <- m ; k" := (bind m (fun x => k))
  (at level 10, x name, m at level 100, k at level 200,
   format "'[v' 'do'  x  <-  m ; '/' k ']'").

(** [THROW_SATEXCEPTION(msg)]; the macro also records file and line, which
    no caller in this header inspects. *)
Definition THROW_SATEXCEPTION {A} (msg : string) : M A :=
  throw (mkSATException msg).

(** [e.print()] *)
Definition print (e : SATException) : M unit :=
  fun w => (Return tt, set_printed (fun l => (l ++ [e])%list) w).

(** ** Heap primitives *)

(** [new] of an object with a virtual table (deleters, wrappers): it
    carries its own class. *)
Definition new (o : object) : M addr :=
  fun w =>
    let m := memory w in
    (Return (brk m),
     set_memory (fun _ => mkMemory (<[brk m := o]> (heap m)) (N.succ (brk m))) w).

Definition free (p : addr) (w : World) : World :=
  set_memory (fun m => mkMemory (delete p (heap m)) (brk m)) w.

(** [delete p] through a base pointer with a virtual destructor (the
    deleter objects): nothing for a null pointer, undefined for a dead
    one. *)
Definition delete_ (p : addr) : M unit :=
  fun w =>
    if bool_decide (p = nullptr) then (Return tt, w)
    else
      match heap (memory w) !! p with
      | Some _ => (Return tt, free p w)
      | None => (Undefined, w)
      end.

Definition load (p : addr) : M object :=
  fun w =>
    match heap (memory w) !! p with
    | Some o => (Return o, w)
    | None => (Undefined, w)
    end.

(** Whether [p] is a live object that was allocated as a [T]. *)
Definition is_a (T : type_index) (p : addr) (w : World) : bool :=
  bool_decide (is_Some (heap (memory w) !! p))
  && bool_decide (dyntype w !! p = Some T).

(** [new T(...)]: a data object, allocated as a [T]. *)
Definition new_as (T : type_index) (o : object) : M addr :=
  fun w =>
    let m := memory w in
    (Return (brk m),
     set_dyntype <[brk m := T]>
       (set_memory (fun _ => mkMemory (<[brk m := o]> (heap m)) (N.succ (brk m))) w)).

(** [*static_cast<T*>(p) = o]: defined for a live object that was
    allocated as a [T]; the object keeps its type. *)
Definition store_as (T : type_index) (p : addr) (o : object) : M unit :=
  fun w =>
    if is_a T p w then
      (Return tt, set_memory (fun m => mkMemory (<[p := o]> (heap m)) (brk m)) w)
    else (Undefined, w).

(** [delete static_cast<T*>(p)]: nothing for a null pointer, defined for
    a live object that was allocated as a [T] and for no other. *)
Definition delete_as (T : type_index) (p : addr) : M unit :=
  fun w =>
    if bool_decide (p = nullptr) then (Return tt, w)
    else if is_a T p w then (Return tt, free p w)
    else (Undefined, w).

(** [*static_cast<T**>(p)]: read the pointer held by the cell at [p].
    Object pointers share one representation, so the address read does
    not depend on the pointee type the cell is read under. *)
Definition load_pointer (p : addr) : M addr :=
  do o <- load p;
  match o with
  | OPointer q => ret q
  | _ => undefined
  end.

(** ** Deleters and [Handle::destroy] *)

(** [deleter<T>::destroy] *)
Definition deleter_destroy (T : type_index) (p : addr) : M unit := delete_as T p.

(** [vec_deleter<T>::destroy]: both deletes go through a pointer to [T].
    Every [createVecHandle] in the header is given a pointer cell, so
    [T] is the type of the cell, not of the collection it points to. *)
Definition vec_deleter_destroy (T : type_index) (p : addr) : M unit :=
  do vecptr <- load_pointer p;
  do _ <- (if bool_decide (vecptr <> nullptr) then delete_as T vecptr else ret tt);
  delete_as T p.

(** [Handle::destroy].  The handle is not written to: [deleter] keeps its
    value after the deleter object is freed. *)
Definition Handle_destroy (h : Handle) : M unit :=
  if bool_decide (deleter h <> nullptr) then
    do d <- load (deleter h);
    do _ <- match d with
            | ODeleter false T => deleter_destroy T (ptr h)
            | ODeleter true T => vec_deleter_destroy T (ptr h)
            | _ => undefined
            end;
    delete_ (deleter h)
  else ret tt.

(** [createHandle<T>(ptr)] *)
Definition createHandle (T : type_index) (p : addr) : M Handle :=
  do d <- new (ODeleter false T);
  ret (mkHandle p d T).

(** [createVecHandle<T>(ptr)] *)
Definition createVecHandle (T : type_index) (p : addr) : M Handle :=
  do d <- new (ODeleter true T);
  ret (mkHandle p d (remove_pointer T)).

(** ** The row source's interface *)

Definition FindBranch (t : TTree) (name : string) : option TBranch :=
  List.find (fun b => bool_decide (br_name b = name)) (branches t).

Definition SetBranchStatus (name : string) (on : bool) (t : TTree) : TTree :=
  mkTTree (branches t)
    (if on then {[name]} ∪ status t else status t ∖ {[name]})
    (address t).

Definition SetBranchAddress (name : string) (p : addr) (t : TTree) : TTree :=
  mkTTree (branches t) (status t) (<[name := p]> (address t)).

(** The row a branch holds at an index, if any. *)
Definition entry_at (b : TBranch) (entry : Z) : option object :=
  if 0 <=? entry then br_entries b !! Z.to_nat entry else None.

(** [branch->GetEvent(entry)]: deliver one row of one column to the
    address bound to it, as an object of the branch's declared type.  A
    collection column is delivered through its pointer cell, allocating
    the collection when the cell is null. *)
Definition TBranch_GetEvent (b : TBranch) (entry : Z) : M unit :=
  do s <- gets id;
  match address (tree_ s) !! br_name b, entry_at b entry with
  | Some a, Some o =>
      if br_isvec b then
        do p <- load_pointer a;
        if bool_decide (p = nullptr) then
          do q <- new_as (vector_t (br_type b)) o;
          store_as (pointer_t (vector_t (br_type b))) a (OPointer q)
        else store_as (vector_t (br_type b)) p o
      else store_as (br_type b) a o
  | _, _ => ret tt
  end.

(** ** Member functions of [NTupleReader] *)

Definition isFirstEvent (s : NTupleReader) : bool := evtProcessed_ s <=? 1.

Definition checkBranch (s : NTupleReader) (name : string) : bool :=
  bool_decide (is_Some (typeMap_ s !! name)).

Definition hasVar (s : NTupleReader) (name : string) : bool := checkBranch s name.

Definition dq : string := String (ascii_of_nat 34) EmptyString.
Definition nl : string := String (ascii_of_nat 10) EmptyString.

(** [operator[]] of the column maps: a default handle when absent. *)
Definition at_ (m : gmap string Handle) (name : string) : Handle :=
  default Handle_default (m !! name).

(** [registerBranch<T>(name)] *)
Definition registerBranch (T : type_index) (name : string) : M unit :=
  do p <- new_as T (value_init T);
  do h <- createHandle T p;
  do _ <- modify (set_branchMap_ <[name := h]>);
  do _ <- modify (set_typeMap_ <[name := demangle T]>);
  do _ <- modify (set_tree_ (SetBranchStatus name true));
  do s <- gets id;
  modify (set_tree_ (SetBranchAddress name (ptr (at_ (branchMap_ s) name)))).

(** [registerVecBranch<T>(name)] *)
Definition registerVecBranch (T : type_index) (name : string) : M unit :=
  do p <- new_as (pointer_t (vector_t T)) (value_init (pointer_t (vector_t T)));
  do h <- createVecHandle (pointer_t (vector_t T)) p;
  do _ <- modify (set_branchVecMap_ <[name := h]>);
  do _ <- modify (set_typeMap_ <[name := demangle (vector_t T)]>);
  do _ <- modify (set_tree_ (SetBranchStatus name true));
  do s <- gets id;
  modify (set_tree_ (SetBranchAddress name (ptr (at_ (branchVecMap_ s) name)))).

(** Modelled from the spec: [registerBranch(TBranch * const)] is defined outside
    this header.  The spec has it query the column's declared storage
    category and element type, allocate a column of that type, mark it
    active and bind its address, which is what the two templates above
    do for the category they serve. *)
Definition registerBranch_TBranch (b : TBranch) : M unit :=
  if br_isvec b then registerVecBranch (br_type b) (br_name b)
  else registerBranch (br_type b) (br_name b).

(** Modelled from the spec: [getType(name, type)] is defined outside this
    header.  The spec has it give the recorded type name and fail when
    the name is absent. *)
Definition getType (name : string) : M string :=
  do s <- gets id;
  match typeMap_ s !! name with
  | Some ty => ret ty
  | None => THROW_SATEXCEPTION ("Variable not found: " +:+ dq +:+ name +:+ dq)
  end.

(** [setDerived<T>(retval, loc)] *)
Definition setDerived (T : type_index) (retval : object) (loc : addr) : M unit :=
  store_as T loc retval.

Definition past_init_msg : string :=
  "New functions cannot be registered after tuple reading begins!" +:+ nl.

(** [registerFunction<T>(f)] *)
Definition registerFunction (f : Callable) : M unit :=
  do s <- gets id;
  if isFirstEvent s then
    do p <- new (OFuncWrapper f);
    modify (set_functionVec_ (fun l => (l ++ [p])%list))
  else THROW_SATEXCEPTION past_init_msg.

Definition redefine_msg (name : string) : string :=
  "You are trying to redefine a tuple var: " +:+ dq +:+ name +:+ dq +:+
  ".  This is not allowed!  Please choose a unique name.".

(** The handler shared by the two derived registrations. *)
Definition print_and_maybe_rethrow (e : SATException) : M unit :=
  do _ <- print e;
  do s <- gets id;
  if reThrow_ s then throw e else ret tt.

(** [registerDerivedVar<T>(name, var)] *)
Definition registerDerivedVar (T : type_index) (name : string) (var : object)
    : M unit :=
  try_catch
    (do s <- gets id;
     do h <- match branchMap_ s !! name with
             | Some h => ret h
             | None =>
                 do _ <- (if bool_decide (is_Some (typeMap_ s !! name))
                          then THROW_SATEXCEPTION (redefine_msg name)
                          else ret tt);
                 do p <- new_as T (value_init T);
                 do h <- createHandle T p;
                 do _ <- modify (set_branchMap_ <[name := h]>);
                 do _ <- modify (set_typeMap_ <[name := demangle T]>);
                 ret h
             end;
     setDerived T var (ptr h))
    print_and_maybe_rethrow.

(** [registerDerivedVec<T>(name, var)]; [var] is the pointer handed
    over.  The collection found in the cell is deleted as a [T] and the
    new pointer is written as a pointer to [T]. *)
Definition registerDerivedVec (T : type_index) (name : string) (var : addr)
    : M unit :=
  try_catch
    (do s <- gets id;
     do h <- match branchVecMap_ s !! name with
             | Some h => ret h
             | None =>
                 do _ <- (if bool_decide (is_Some (typeMap_ s !! name))
                          then THROW_SATEXCEPTION (redefine_msg name)
                          else ret tt);
                 do p <- new_as (pointer_t T) (value_init (pointer_t T));
                 do h <- createVecHandle (pointer_t T) p;
                 do _ <- modify (set_branchVecMap_ <[name := h]>);
                 do _ <- modify (set_typeMap_ <[name := demangle T]>);
                 ret h
             end;
     do vecptr <- load_pointer (ptr h);
     do _ <- (if bool_decide (vecptr <> nullptr) then delete_as T vecptr else ret tt);
     setDerived (pointer_t T) (OPointer var) (ptr h))
    print_and_maybe_rethrow.

(** [updateTupleVar<T>(name, var)] *)
Definition updateTupleVar (T : type_index) (name : string) (var : object)
    : M unit :=
  do s <- gets id;
  do _ <- (if isFirstEvent s && bool_decide (branchMap_ s !! name = None) then
             do p <- new_as T (value_init T);
             do h <- createVecHandle T p;
             do _ <- modify (set_branchMap_ <[name := h]>);
             modify (set_typeMap_ <[name := demangle T]>)
           else ret tt);
  do s <- gets id;
  match branchMap_ s !! name with
  | Some h => store_as T (ptr h) var
  | None =>
      THROW_SATEXCEPTION ("Variable not found: " +:+ dq +:+ name +:+ dq +:+ "!!!" +:+ nl)
  end.

(** ** Typed lookup: [getTupleObj] *)

(** The [v_tuple] argument of [getTupleObj] is a reference to one of the
    reader's own two maps, so it sees what the call itself inserts. *)
Inductive tuple_ref : Type := ref_branchMap_ | ref_branchVecMap_.

Definition deref_tuple (v : tuple_ref) (s : NTupleReader) : gmap string Handle :=
  match v with
  | ref_branchMap_ => branchMap_ s
  | ref_branchVecMap_ => branchVecMap_ s
  end.

(** The name looked up: [prefix_ + var] when the schema knows it. *)
Definition resolve (s : NTupleReader) (var : string) : string :=
  if checkBranch s (prefix_ s +:+ var) then prefix_ s +:+ var else var.

(** The four assignments to [typen].  The variable is declared without an
    initialiser; [typen0] is whatever it holds when no test fires. *)
Definition select_typen (typen0 : ascii) (requested native : type_index) : ascii :=
  let typen := typen0 in
  let typen :=
    if bool_decide (requested = vector_t float_t) && bool_decide (native = vector_t double_t)
    then "f"%char else typen in
  let typen :=
    if bool_decide (requested = vector_t double_t) && bool_decide (native = vector_t float_t)
    then "d"%char else typen in
  let typen :=
    if bool_decide (requested = vector_t int_t) && bool_decide (native = vector_t unsigned_int_t)
    then "i"%char else typen in
  let typen :=
    if bool_decide (requested = vector_t int_t) && bool_decide (native = vector_t float_t)
    then "a"%char else typen in
  typen.

Definition shadow (varName : string) (typen : ascii) : string :=
  varName +:+ "___" +:+ String typen EmptyString.

Definition not_found_msg (T : type_index) (var : string) (known : option string)
    : string :=
  match known with
  | Some ty =>
      "Variable not found: " +:+ dq +:+ var +:+ dq +:+ " with type " +:+ dq +:+
      demangle (remove_pointer T) +:+ dq +:+ ", but is found with type " +:+ dq +:+
      ty +:+ dq +:+ "!!!"
  | None =>
      "Variable not found: " +:+ dq +:+ var +:+ dq +:+ " with type " +:+ dq +:+
      demangle (remove_pointer T) +:+ dq +:+ "!!!"
  end.

(** The tail of [getTupleObj]: the diagnostic is keyed on the name as
    requested, [var], not on the resolved one. *)
Definition not_found {A} (T : type_index) (var : string) : M A :=
  do s <- gets id;
  THROW_SATEXCEPTION (not_found_msg T var (typeMap_ s !! var)).

(** [getTupleObj<T, V>(var, v_tuple, forceLoad)].  The result is the
    address the returned [T&] refers to.  [typen0] stands for the
    content of the uninitialised local [typen]; the subtraction
    [nevt_ - 1] is exact in [Z]. *)
Definition getTupleObj (T : type_index) (typen0 : ascii) (var : string)
    (v_tuple : tuple_ref) (forceLoad : bool) : M addr :=
  do s <- gets id;
  let varName := resolve s var in
  let requested := remove_pointer T in
  match deref_tuple v_tuple s !! varName with
  | Some h =>
      if bool_decide (type h = requested) || forceLoad then ret (ptr h)
      else if convertHackActive_ s then
        let typen := select_typen typen0 requested (type h) in
        let newname := shadow varName typen in
        match branchVecMap_ s !! newname with
        | Some h1 => ret (ptr h1)
        | None =>
            do varType <- getType varName;
            match branchMap_ s !! (varName +:+ "___d") with
            | Some h2 => ret (ptr h2)
            | None =>
                match branchMap_ s !! (varName +:+ "___f") with
                | Some h3 => ret (ptr h3)
                | None =>
                    match branchMap_ s !! (varName +:+ "___i") with
                    | Some h4 => ret (ptr h4)
                    | None => not_found T var
                    end
                end
            end
        end
      else not_found T var
  | None =>
      if bool_decide (is_Some (typeMap_ s !! varName)) then
        match FindBranch (tree_ s) varName with
        | Some branch =>
            do _ <- registerBranch_TBranch branch;
            do s' <- gets id;
            let tuple_iter := deref_tuple v_tuple s' !! varName in
            do _ <- TBranch_GetEvent branch (nevt_ s - 1);
            match tuple_iter with
            | Some h =>
                if bool_decide (type h = requested) then ret (ptr h)
                else not_found T var
            | None => undefined       (* [tuple_iter] is [end()] *)
            end
        | None => not_found T var
        end
      else not_found T var
  end.

(** The handler shared by the typed accessors; the value returned when
    the exception is swallowed is a reference bound to a null pointer. *)
Definition accessor_catch (e : SATException) : M addr :=
  do s <- gets id;
  do _ <- (if isFirstEvent s then print e else ret tt);
  if reThrow_ s then throw e else ret nullptr.

(** [getVar<T>(var, forceLoad)] *)
Definition getVar (T : type_index) (typen0 : ascii) (var : string)
    (forceLoad : bool) : M addr :=
  try_catch (getTupleObj T typen0 var ref_branchMap_ forceLoad) accessor_catch.

(** [getVec<T>(var, forceLoad)]: the reference returned is to the
    collection the cell points to. *)
Definition getVec (T : type_index) (typen0 : ascii) (var : string)
    (forceLoad : bool) : M addr :=
  try_catch
    (do cell <- getTupleObj (pointer_t (vector_t T)) typen0 var ref_branchVecMap_ forceLoad;
     load_pointer cell)
    accessor_catch.

(** [getMap<T, V>(var)] *)
Definition getMap (K V : type_index) (typen0 : ascii) (var : string) : M addr :=
  try_catch
    (do cell <- getTupleObj (pointer_t (map_t K V)) typen0 var ref_branchVecMap_ false;
     load_pointer cell)
    accessor_catch.

(** What a typed accessor leaves behind when its lookup threw [e] in
    state [w]: the exception again when [reThrow_] is set, a null
    reference otherwise, and [e] on the output during the first event
    only. *)
Definition accessor_failure (e : SATException) (w : World) : outcome addr * World :=
  (if reThrow_ (reader w) then Throw e else Return nullptr,
   if isFirstEvent (reader w) then set_printed (fun l => (l ++ [e])%list) w else w).



(** The storage category a map reference stands for. *)
Definition is_vec (v : tuple_ref) : bool :=
  match v with
  | ref_branchMap_ => false
  | ref_branchVecMap_ => true
  end.

(** The type tag a branch of category [vec] and declared type [T] is
    attached under. *)
Definition attached_type (vec : bool) (T : type_index) : type_index :=
  if vec then vector_t T else T.

(** The machine after a column was attached: a fresh cell and a fresh
    deleter object, the handle in the map of its category, the type name
    recorded, the column active and bound to the cell. *)
(** The type of the cell such a branch is delivered to, which is also
    the template argument of its deleter. *)
Definition cell_type (vec : bool) (T : type_index) : type_index :=
  if vec then pointer_t (vector_t T) else T.

Definition attached (vec : bool) (T : type_index) (name : string) (w : World) : World :=
  let p := brk (memory w) in
  let h := mkHandle p (N.succ p) (attached_type vec T) in
  mkWorld
    (set_tree_ (fun t => SetBranchAddress name p (SetBranchStatus name true t))
       (set_typeMap_ <[name := demangle (attached_type vec T)]>
          ((if vec then set_branchVecMap_ <[name := h]>
            else set_branchMap_ <[name := h]>) (reader w))))
    (mkMemory
       (<[N.succ p := ODeleter vec (cell_type vec T)]>
          (<[p := if vec then OPointer nullptr else value_init T]> (heap (memory w))))
       (N.succ (N.succ p)))
    (printed w)
    (<[p := cell_type vec T]> (dyntype w)).

(** The machine after one row [o] was delivered to the cell [p] of a
    column of declared type [T] whose collection, if it is one, was not
    allocated yet. *)
Definition delivered (vec : bool) (T : type_index) (p : addr) (o : object)
    (w : World) : World :=
  if vec then
    set_dyntype <[brk (memory w) := vector_t T]>
      (set_memory
         (fun m => mkMemory (<[p := OPointer (brk m)]> (<[brk m := o]> (heap m)))
                     (N.succ (brk m))) w)
  else set_memory (fun m => mkMemory (<[p := o]> (heap m)) (brk m)) w.

(** ** Registered callables *)

Section FuncWrapper.

(** What running the code behind a callable does: a void callable
    yields [None], a predicate [Some b]. *)
Variable call : Callable -> M (option bool).

(** [FuncWrapperImpl<T>::operator()(tr)] *)
Definition FuncWrapperImpl_call (func_ : Callable) : M bool :=
  do _ <- call func_;
  ret true.

(** The virtual call through a stored pointer to a [FuncWrapper]. *)
Definition FuncWrapper_call (w : addr) : M bool :=
  do o <- load w;
  match o with
  | OFuncWrapper f => FuncWrapperImpl_call f
  | _ => undefined
  end.

End FuncWrapper.

(** ** A sample session

    The end-to-end source of the specification: a scalar [count : int]
    and a collection [vals : vector<double>] (entries scaled by ten to
    stay integral), three rows, positioned on the first row with the
    schema known and no storage attached yet. *)

Module Sample.

Definition b_count : TBranch :=
  mkTBranch "count" false int_t [OValue 1; OValue 2; OValue 3].

Definition b_vals : TBranch :=
  mkTBranch "vals" true double_t [OVector []; OVector [15]; OVector [15; 25]].

Definition tree0 : TTree := mkTTree [b_count; b_vals] ∅ ∅.

Definition schema0 : gmap string string :=
  <["count" := demangle int_t]> (<["vals" := demangle (vector_t double_t)]> ∅).

Definition reader0 : NTupleReader :=
  mkNTupleReader tree0 1 1 false false false EmptyString ∅ ∅ [] schema0 ∅.

Definition w0 : World := mkWorld reader0 (mkMemory ∅ 1%N) [] ∅.

(** The same session after [getVar<int>("count")] attached the column. *)
Definition w_count : World := snd (getVar int_t "?"%char "count" false w0).

(** ... and after [getVec<double>("vals")] as well. *)
Definition w_both : World := snd (getVec double_t "?"%char "vals" false w_count).

(** The session on its third row. *)
Definition w_row3 : World := set_reader (set_evtProcessed_ 3) w_count.

(** The handle [getVar<int>("count")] created in [w_count]. *)
Definition h_count : Handle := mkHandle 1%N 2%N int_t.

(** The session with the conversion hack on and a shadow collection
    [vals___f] supplied the way the duplication step does, through a
    derived collection column. *)
Definition w_hack : World :=
  set_reader (set_convertHackActive_ true)
    (snd ((do q <- new_as (vector_t float_t) (OVector [15]);
           registerDerivedVec (vector_t float_t) "vals___f" q) w_both)).

(** The handles of [vals] and of its shadow in [w_hack]. *)
Definition h_vals : Handle := mkHandle 3%N 4%N (vector_t double_t).

(** The session with the conversion hack on and a scalar shadow
    [count___d]. *)
Definition w_scalar_hack : World :=
  set_reader (set_convertHackActive_ true)
    (snd (registerDerivedVar double_t "count___d" (OValue 1) w_count)).

(** A session that reads its columns through the prefix [p_]: the source
    column is [p_count], callers ask for [count]. *)
Definition w_prefix : World :=
  snd (getVar int_t "?"%char "count" false
         (mkWorld
            (mkNTupleReader
               (mkTTree [mkTBranch "p_count" false int_t [OValue 1]] ∅ ∅)
               1 1 false false false "p_" ∅ ∅ []
               (<["p_count" := demangle int_t]> ∅) ∅)
            (mkMemory ∅ 1%N) [] ∅)).

(** The session [w_count] after a derived collection was registered as
    [p_count] and the prefix set to [p_]: [count] is attached, and
    lookups of [count] resolve to [p_count]. *)
Definition w_prefixed : World :=
  set_reader (set_prefix_ "p_")
    (snd (registerDerivedVec (vector_t int_t) "p_count" nullptr w_count)).

(** Two callables: code 0 is a void transform that writes the derived
    scalar [total]; every other code is a predicate that writes [pass]
    and answers [false]. *)
Definition call0 (f : Callable) : M (option bool) :=
  match f with
  | O => do _ <- registerDerivedVar int_t "total" (OValue 10); ret None
  | S _ => do _ <- registerDerivedVar bool_t "pass" (OValue 0); ret (Some false)
  end.

End Sample.

(** ** Further members and the ways callers combine them *)

(** [getEvtNum()] *)
Definition getEvtNum (s : NTupleReader) : Z := nevt_ s.

(** [setPrefix(pre)] *)
Definition setPrefix (pre : string) : M unit := modify (set_prefix_ pre).

(** A caller registering its callables one after the other, stopping at
    the first call that throws. *)
Fixpoint register_all (fs : list Callable) : M unit :=
  match fs with
  | [] => ret tt
  | f :: rest => do _ <- registerFunction f; register_all rest
  end.

(** The addresses [new] hands out for [n] successive one-object
    allocations starting at [p]. *)
Fixpoint fresh_run (p : addr) (n : nat) : list addr :=
  match n with
  | O => []
  | S k => p :: fresh_run (N.succ p) k
  end.

(** [new] has never handed out the null pointer nor an address at or
    above [brk]. *)
Definition allocator_ok (m : Memory) : Prop :=
  brk m <> nullptr /\ map_Forall (fun a _ => (a < brk m)%N) (heap m).

#[global] Instance allocator_ok_dec m : Decision (allocator_ok m).
Proof. unfold allocator_ok. apply _. Defined.

(** The heap with the allocation pointer moved on and nothing else
    changed. *)
Definition bump (n : N) (w : World) : World :=
  set_memory (fun m => mkMemory (heap m) (brk m + n)%N) w.

(** The machine right after [new T] of [o] followed by [new] of the
    deleter object [d]. *)
Definition two_new (T : type_index) (o d : object) (w : World) : World :=
  set_dyntype <[brk (memory w) := T]>
    (set_memory
       (fun m => mkMemory (<[N.succ (brk m) := d]> (<[brk m := o]> (heap m)))
                   (N.succ (N.succ (brk m)))) w).

(** Writing [o] into the live cell [p]. *)
Definition written (p : addr) (o : object) (w : World) : World :=
  set_memory (fun m => mkMemory (<[p := o]> (heap m)) (brk m)) w.

(** The machine after a derived column was created: like [attached]
    but with the handle and deleter the caller's template arguments give
    ([C] is the type of the new cell) and nothing done to the row
    source. *)
Definition derived (vec : bool) (tag C : type_index) (tyname : string)
    (init : object) (name : string) (w : World) : World :=
  let p := brk (memory w) in
  let h := mkHandle p (N.succ p) tag in
  mkWorld
    (set_typeMap_ <[name := tyname]>
       ((if vec then set_branchVecMap_ <[name := h]>
         else set_branchMap_ <[name := h]>) (reader w)))
    (mkMemory (<[N.succ p := ODeleter vec C]> (<[p := init]> (heap (memory w))))
       (N.succ (N.succ p)))
    (printed w)
    (<[p := C]> (dyntype w)).



(** The session [w_count] with a derived collection registered as
    [p_count]: the schema now knows [p_count], the scalar map holds
    [count] only. *)
Definition w_p_count : World :=
  snd (registerDerivedVec (vector_t int_t) "p_count" nullptr Sample.w_count).


(** The machine after [updateTupleVar<T>] created a column: a scalar
    cell in [branchMap_] whose handle carries a collection deleter and
    the tag [remove_pointer<T>]. *)
Definition created_by_update (T : type_index) (name : string) (w : World) : World :=
  let p := brk (memory w) in
  mkWorld
    (set_typeMap_ <[name := demangle T]>
       (set_branchMap_ <[name := mkHandle p (N.succ p) (remove_pointer T)]> (reader w)))
    (mkMemory (<[N.succ p := ODeleter true T]> (<[p := value_init T]> (heap (memory w))))
       (N.succ (N.succ p)))
    (printed w)
    (<[p := T]> (dyntype w)).

(** ** The store invariant *)

(** Every attached column has a recorded type name. *)
Definition columns_typed (s : NTupleReader) : Prop :=
  dom (branchMap_ s) ∪ dom (branchVecMap_ s) ⊆ dom (typeMap_ s).

#[global] Instance columns_typed_dec s : Decision (columns_typed s).
Proof. unfold columns_typed. apply _. Defined.

(** Running a computation and keeping the final reader. *)
Definition after {A} (m : M A) (w : World) : NTupleReader := reader (snd (m w)).

Ltac run :=
  repeat first
    [ progress cbn [fst snd reader memory printed dyntype set_reader set_memory
                    set_printed set_dyntype
                    branchMap_ branchVecMap_ typeMap_ functionVec_ tree_
                    set_branchMap_ set_branchVecMap_ set_typeMap_ set_tree_
                    set_functionVec_ heap brk ptr deleter type] in *
    | progress unfold bind, ret, gets, modify, throw, undefined, THROW_SATEXCEPTION,
        try_catch, print, new, new_as, store_as, delete_as, is_a, load, delete_, free,
        load_pointer, setDerived, createHandle, createVecHandle, after in * ].

Lemma typed_insert_scalar (bm bvm : gmap string Handle) (tm : gmap string string)
    name h ty :
  dom bm ∪ dom bvm ⊆ dom tm ->
  dom (<[name := h]> bm) ∪ dom bvm ⊆ dom (<[name := ty]> tm).
Proof.
  intros H. apply elem_of_subseteq. intros x.
  rewrite !dom_insert_L, !elem_of_union, elem_of_singleton.
  intros [[->|Hx]|Hx]; [by left | right; apply H, elem_of_union; by left
                       | right; apply H, elem_of_union; by right].
Qed.

Lemma typed_insert_vector (bm bvm : gmap string Handle) (tm : gmap string string)
    name h ty :
  dom bm ∪ dom bvm ⊆ dom tm ->
  dom bm ∪ dom (<[name := h]> bvm) ⊆ dom (<[name := ty]> tm).
Proof.
  intros H. apply elem_of_subseteq. intros x.
  rewrite !dom_insert_L, !elem_of_union, elem_of_singleton.
  intros [Hx|[->|Hx]]; [right; apply H, elem_of_union; by left | by left
                       | right; apply H, elem_of_union; by right].
Qed.

Lemma registerBranch_typed T name w :
  columns_typed (reader w) -> columns_typed (after (registerBranch T name) w).
Proof.
  unfold columns_typed, registerBranch. run. apply typed_insert_scalar.
Qed.

Lemma registerVecBranch_typed T name w :
  columns_typed (reader w) -> columns_typed (after (registerVecBranch T name) w).
Proof.
  unfold columns_typed, registerVecBranch. run. apply typed_insert_vector.
Qed.

Lemma registerBranch_TBranch_typed b w :
  columns_typed (reader w) -> columns_typed (after (registerBranch_TBranch b) w).
Proof.
  unfold registerBranch_TBranch. destruct (br_isvec b);
    [apply registerVecBranch_typed | apply registerBranch_typed].
Qed.

(** Case analysis on the innermost scrutinee first, so that the lookups
    are decided before the computations that depend on them. *)
Ltac split_match :=
  match goal with
  | |- context [match ?x with _ => _ end] =>
      lazymatch x with
      | context [match _ with _ => _ end] => fail
      | _ => destruct x eqn:?
      end
  end.

Lemma registerDerivedVar_typed T name var w :
  columns_typed (reader w) -> columns_typed (after (registerDerivedVar T name var) w).
Proof.
  intros H. unfold columns_typed, registerDerivedVar, print_and_maybe_rethrow in *.
  run. repeat (split_match; run); simplify_eq; run;
    solve [ assumption | by apply typed_insert_scalar ].
Qed.

Lemma registerDerivedVec_typed T name var w :
  columns_typed (reader w) -> columns_typed (after (registerDerivedVec T name var) w).
Proof.
  intros H. unfold columns_typed, registerDerivedVec, print_and_maybe_rethrow in *.
  run. repeat (split_match; run); simplify_eq; run;
    solve [ assumption | by apply typed_insert_vector ].
Qed.

Lemma updateTupleVar_typed T name var w :
  columns_typed (reader w) -> columns_typed (after (updateTupleVar T name var) w).
Proof.
  intros H. unfold columns_typed, updateTupleVar in *.
  run. repeat (split_match; run); simplify_eq; run;
    solve [ assumption | by apply typed_insert_scalar ].
Qed.

(** ** C10: attached columns are typed *)

(** C10. Each of the operations that insert into a column map (the branch
    registration templates, the dispatcher over them, the two derived
    registrations and [updateTupleVar]) keeps every key of [branchMap_]
    and [branchVecMap_] inside the keys of [typeMap_], whatever the
    outcome of the call.  The converse fails in a reachable state: after
    [count] alone was attached, [vals] is typed but has no storage. *)
Theorem C10_columns_typed_preserved :
  (forall w, columns_typed (reader w) ->
     (forall T name, columns_typed (after (registerBranch T name) w)) /\
     (forall T name, columns_typed (after (registerVecBranch T name) w)) /\
     (forall b, columns_typed (after (registerBranch_TBranch b) w)) /\
     (forall T name var, columns_typed (after (registerDerivedVar T name var) w)) /\
     (forall T name var, columns_typed (after (registerDerivedVec T name var) w)) /\
     (forall T name var, columns_typed (after (updateTupleVar T name var) w))) /\
  (columns_typed (reader Sample.w_count) /\
   "vals" ∈ dom (typeMap_ (reader Sample.w_count)) /\
   "vals" ∉ dom (branchMap_ (reader Sample.w_count))
            ∪ dom (branchVecMap_ (reader Sample.w_count))).
Proof.
  split.
  - intros w H. repeat split; intros.
    + by apply registerBranch_typed.
    + by apply registerVecBranch_typed.
    + by apply registerBranch_TBranch_typed.
    + by apply registerDerivedVar_typed.
    + by apply registerDerivedVec_typed.
    + by apply updateTupleVar_typed.
  - split; [|split].
    + apply (bool_decide_unpack _). vm_compute. exact I.
    + apply elem_of_dom. eexists. vm_compute. reflexivity.
    + apply not_elem_of_union; split; apply not_elem_of_dom; vm_compute; reflexivity.
Qed.

Lemma C10_witness :
  columns_typed (reader Sample.w0) /\
  columns_typed (after (registerDerivedVar int_t "total" (OValue 10)) Sample.w0).
Proof.
  assert (H : columns_typed (reader Sample.w0)).
  { apply (bool_decide_unpack _). vm_compute. exact I. }
  split; [exact H|].
  destruct (proj1 C10_columns_typed_preserved Sample.w0 H) as (_ & _ & _ & Hd & _).
  exact (Hd int_t "total" (OValue 10)).
Defined.

(** ** C2: registration after the first event *)

Lemma isFirstEvent_false s : 1 < evtProcessed_ s -> isFirstEvent s = false.
Proof. intros H. unfold isFirstEvent. by apply Z.leb_gt. Qed.

Lemma registerFunction_past_init f w :
  1 < evtProcessed_ (reader w) ->
  registerFunction f w = (Throw (mkSATException past_init_msg), w).
Proof.
  intros H. unfold registerFunction. run. unfold id.
  by rewrite (isFirstEvent_false _ H).
Qed.

Lemma registerFunction_first_event f w :
  evtProcessed_ (reader w) <= 1 ->
  functionVec_ (after (registerFunction f) w)
  = (functionVec_ (reader w) ++ [brk (memory w)])%list.
Proof.
  intros H. unfold registerFunction, isFirstEvent. run. unfold id.
  apply Z.leb_le in H. by rewrite H.
Qed.

Lemma registerDerivedVar_functionVec T name var w :
  functionVec_ (after (registerDerivedVar T name var) w) = functionVec_ (reader w).
Proof.
  unfold registerDerivedVar, print_and_maybe_rethrow. run.
  repeat (split_match; run); simplify_eq; reflexivity.
Qed.

Lemma registerDerivedVec_functionVec T name var w :
  functionVec_ (after (registerDerivedVec T name var) w) = functionVec_ (reader w).
Proof.
  unfold registerDerivedVec, print_and_maybe_rethrow. run.
  repeat (split_match; run); simplify_eq; reflexivity.
Qed.

(** The derived registrations never read [evtProcessed_]. *)
Lemma registerDerivedVar_any_event T name var n w :
  registerDerivedVar T name var (set_reader (set_evtProcessed_ n) w)
  = (fst (registerDerivedVar T name var w),
     set_reader (set_evtProcessed_ n) (snd (registerDerivedVar T name var w))).
Proof.
  unfold registerDerivedVar, print_and_maybe_rethrow. run. unfold id.
  cbn [set_evtProcessed_ branchMap_ typeMap_ reThrow_].
  repeat (split_match; run; cbn [set_evtProcessed_ reThrow_] in * );
    simplify_eq; try reflexivity.
Qed.

Lemma registerDerivedVec_any_event T name var n w :
  registerDerivedVec T name var (set_reader (set_evtProcessed_ n) w)
  = (fst (registerDerivedVec T name var w),
     set_reader (set_evtProcessed_ n) (snd (registerDerivedVec T name var w))).
Proof.
  unfold registerDerivedVec, print_and_maybe_rethrow. run. unfold id.
  cbn [set_evtProcessed_ branchVecMap_ typeMap_ reThrow_].
  repeat (split_match; run; cbn [set_evtProcessed_ reThrow_] in * );
    simplify_eq; try reflexivity.
Qed.

(** C2 (amended). Once [evtProcessed_ > 1], [registerFunction] throws and
    leaves the whole machine, the pipeline list included, as it was.  The
    derived registrations have no such gate: they never change the
    pipeline list and behave the same for every value of [evtProcessed_]. *)
Theorem C2_registerFunction_past_init w :
  1 < evtProcessed_ (reader w) ->
  (forall f, registerFunction f w = (Throw (mkSATException past_init_msg), w)) /\
  (forall T name var,
     functionVec_ (after (registerDerivedVar T name var) w) = functionVec_ (reader w)) /\
  (forall T name var,
     functionVec_ (after (registerDerivedVec T name var) w) = functionVec_ (reader w)) /\
  (forall T name var n,
     registerDerivedVar T name var (set_reader (set_evtProcessed_ n) w)
     = (fst (registerDerivedVar T name var w),
        set_reader (set_evtProcessed_ n) (snd (registerDerivedVar T name var w)))) /\
  (forall T name var n,
     registerDerivedVec T name var (set_reader (set_evtProcessed_ n) w)
     = (fst (registerDerivedVec T name var w),
        set_reader (set_evtProcessed_ n) (snd (registerDerivedVec T name var w)))).
Proof.
  intros H. split; [|split; [|split; [|split]]].
  - intros f. by apply registerFunction_past_init.
  - intros. apply registerDerivedVar_functionVec.
  - intros. apply registerDerivedVec_functionVec.
  - intros. apply registerDerivedVar_any_event.
  - intros. apply registerDerivedVec_any_event.
Qed.

Lemma C2_witness :
  1 < evtProcessed_ (reader Sample.w_row3) /\
  registerFunction 7%nat Sample.w_row3
  = (Throw (mkSATException past_init_msg), Sample.w_row3).
Proof.
  assert (H : 1 < evtProcessed_ (reader Sample.w_row3)) by (vm_compute; reflexivity).
  split; [exact H|].
  exact (proj1 (C2_registerFunction_past_init Sample.w_row3 H) 7%nat).
Defined.

(** C2 as stated fails for the derived registrations: on the third row a
    new derived scalar is registered, nothing is thrown or printed, and
    the column is created. *)
Lemma C2_derived_registration_not_gated :
  1 < evtProcessed_ (reader Sample.w_row3) /\
  fst (registerDerivedVar int_t "total" (OValue 30) Sample.w_row3) = Return tt /\
  printed (snd (registerDerivedVar int_t "total" (OValue 30) Sample.w_row3))
  = printed Sample.w_row3 /\
  is_Some (branchMap_ (after (registerDerivedVar int_t "total" (OValue 30)) Sample.w_row3)
           !! "total").
Proof.
  split; [vm_compute; reflexivity|].
  split; [vm_compute; reflexivity|].
  split; [vm_compute; reflexivity|].
  eexists. vm_compute. reflexivity.
Qed.

(** ** C9: the pipeline wrapper *)

Section Wrapper.

Variable call : Callable -> M (option bool).

Lemma FuncWrapperImpl_call_returns f w r w' :
  call f w = (Return r, w') ->
  FuncWrapperImpl_call call f w = (Return true, w').
Proof. intros H. unfold FuncWrapperImpl_call, bind, ret. by rewrite H. Qed.

Lemma FuncWrapper_call_dispatch p f w :
  heap (memory w) !! p = Some (OFuncWrapper f) ->
  FuncWrapper_call call p w = FuncWrapperImpl_call call f w.
Proof. intros H. unfold FuncWrapper_call, bind at 1, load. by rewrite H. Qed.

End Wrapper.

(** C9. Whatever a registered callable returns (nothing, [true] or
    [false]), as soon as it returns the wrapper's invocation has run it
    once (the machine is in the state that one run leaves) and yields
    [true]; the same holds through the stored wrapper pointer, and two
    callables that leave the same state are indistinguishable to the
    driver. *)
Theorem C9_wrapper_returns_true call f w r w' :
  call f w = (Return r, w') ->
  FuncWrapperImpl_call call f w = (Return true, w') /\
  (forall p, heap (memory w) !! p = Some (OFuncWrapper f) ->
             FuncWrapper_call call p w = (Return true, w')) /\
  (forall call' g r', call' g w = (Return r', w') ->
             FuncWrapperImpl_call call' g w = FuncWrapperImpl_call call f w).
Proof.
  intros H. split; [|split].
  - by apply FuncWrapperImpl_call_returns with r.
  - intros p Hp. rewrite (FuncWrapper_call_dispatch call p f w Hp).
    by apply FuncWrapperImpl_call_returns with r.
  - intros call' g r' H'.
    rewrite (FuncWrapperImpl_call_returns call' g w r' w' H').
    symmetry. by apply FuncWrapperImpl_call_returns with r.
Qed.

Lemma C9_witness :
  Sample.call0 1%nat Sample.w0
  = (Return (Some false), snd (Sample.call0 1%nat Sample.w0)) /\
  FuncWrapperImpl_call Sample.call0 1%nat Sample.w0
  = (Return true, snd (Sample.call0 1%nat Sample.w0)).
Proof.
  assert (H : Sample.call0 1%nat Sample.w0
              = (Return (Some false), snd (Sample.call0 1%nat Sample.w0)))
    by (vm_compute; reflexivity).
  split; [exact H|].
  exact (proj1 (C9_wrapper_returns_true Sample.call0 1%nat Sample.w0 _ _ H)).
Defined.

(** ** C7: [Handle::destroy] *)

Lemma is_a_true T p w :
  is_Some (heap (memory w) !! p) -> dyntype w !! p = Some T -> is_a T p w = true.
Proof.
  intros Hl Ht. unfold is_a. by rewrite !bool_decide_eq_true_2.
Qed.

Lemma is_a_live T p w : is_a T p w = true -> is_Some (heap (memory w) !! p).
Proof.
  unfold is_a. intros H. apply andb_true_iff in H as [H _].
  by apply bool_decide_eq_true_1 in H.
Qed.

Lemma is_a_other T p w : dyntype w !! p <> Some T -> is_a T p w = false.
Proof.
  intros H. unfold is_a. rewrite (bool_decide_eq_false_2 _ H). apply andb_false_r.
Qed.

Lemma is_a_dead T p w : heap (memory w) !! p = None -> is_a T p w = false.
Proof.
  intros H. unfold is_a. rewrite H. rewrite bool_decide_eq_false_2; [done|].
  by intros [? ?].
Qed.

(** Freeing or overwriting another object does not change what [p] is. *)
Lemma is_a_free_ne T p q w : p <> q -> is_a T p (free q w) = is_a T p w.
Proof. intros H. unfold is_a, free. cbn. by rewrite lookup_delete_ne. Qed.

Lemma delete__returns p w w' :
  delete_ p w = (Return tt, w') ->
  (p = nullptr /\ w' = w) \/
  (p <> nullptr /\ is_Some (heap (memory w) !! p) /\ w' = free p w).
Proof.
  unfold delete_. case_bool_decide as Hp.
  - intros [= <-]. by left.
  - destruct (heap (memory w) !! p) eqn:E; [|discriminate].
    intros [= <-]. right. eauto.
Qed.

Lemma delete__gone p w w' :
  delete_ p w = (Return tt, w') -> p <> nullptr -> heap (memory w') !! p = None.
Proof.
  intros H Hp. destruct (delete__returns _ _ _ H) as [[? _]|(_ & _ & ->)]; [done|].
  cbn. apply lookup_delete_eq.
Qed.

Lemma delete__keeps_gone p q w w' :
  delete_ p w = (Return tt, w') ->
  heap (memory w) !! q = None -> heap (memory w') !! q = None.
Proof.
  intros H Hq. destruct (delete__returns _ _ _ H) as [[_ ->]|(_ & _ & ->)]; [done|].
  cbn. rewrite lookup_delete. by case_decide.
Qed.

Lemma delete_as_returns T p w w' :
  delete_as T p w = (Return tt, w') ->
  (p = nullptr /\ w' = w) \/
  (p <> nullptr /\ is_a T p w = true /\ w' = free p w).
Proof.
  unfold delete_as. case_bool_decide as Hp.
  - intros [= <-]. by left.
  - destruct (is_a T p w) eqn:E; [|discriminate].
    intros [= <-]. right. eauto.
Qed.

Lemma delete_as_gone T p w w' :
  delete_as T p w = (Return tt, w') -> p <> nullptr -> heap (memory w') !! p = None.
Proof.
  intros H Hp. destruct (delete_as_returns _ _ _ _ H) as [[? _]|(_ & _ & ->)]; [done|].
  cbn. apply lookup_delete_eq.
Qed.

Lemma delete_as_live T p w :
  p <> nullptr -> is_a T p w = true -> delete_as T p w = (Return tt, free p w).
Proof.
  intros Hp Ha. unfold delete_as. by rewrite bool_decide_eq_false_2, Ha.
Qed.

Lemma delete_as_mistyped T p w :
  p <> nullptr -> is_a T p w = false -> delete_as T p w = (Undefined, w).
Proof.
  intros Hp Ha. unfold delete_as. by rewrite bool_decide_eq_false_2, Ha.
Qed.

Lemma deleter_destroy_gone T p w w' :
  deleter_destroy T p w = (Return tt, w') -> p <> nullptr ->
  heap (memory w') !! p = None.
Proof. apply delete_as_gone. Qed.

Lemma vec_deleter_destroy_gone T p w w' :
  vec_deleter_destroy T p w = (Return tt, w') -> p <> nullptr ->
  heap (memory w') !! p = None.
Proof.
  unfold vec_deleter_destroy, load_pointer, load, bind at 1 2.
  destruct (heap (memory w) !! p) as [[]|]; try discriminate.
  cbn [ret]. unfold bind.
  destruct (if bool_decide (_ <> nullptr) then _ else _) as [[] w1] eqn:E;
    try discriminate.
  intros H Hp. by apply delete_as_gone in H.
Qed.

(** What a returning call of [destroy] on a handle with a bound deleter
    has done: the deleter object and the storage are gone. *)
Lemma Handle_destroy_frees h w w' :
  deleter h <> nullptr ->
  Handle_destroy h w = (Return tt, w') ->
  heap (memory w') !! deleter h = None /\
  (ptr h <> nullptr -> heap (memory w') !! ptr h = None).
Proof.
  intros Hd. unfold Handle_destroy. rewrite bool_decide_eq_true_2 by done.
  unfold bind at 1, load.
  destruct (heap (memory w) !! deleter h) as [d|] eqn:E; [|discriminate].
  destruct d as [| | |[] T|]; unfold bind, undefined; try discriminate.
  - destruct (vec_deleter_destroy T (ptr h) w) as [[[]| |] w1] eqn:E1;
      try discriminate.
    intros H. split; [by apply delete__gone in H|].
    intros Hp. apply (delete__keeps_gone _ _ _ _ H).
    by apply vec_deleter_destroy_gone in E1.
  - destruct (deleter_destroy T (ptr h) w) as [[[]| |] w1] eqn:E1;
      try discriminate.
    intros H. split; [by apply delete__gone in H|].
    intros Hp. apply (delete__keeps_gone _ _ _ _ H).
    by apply deleter_destroy_gone in E1.
Qed.

(** Calling [destroy] when the deleter object is dead. *)
Lemma Handle_destroy_dangling h w :
  deleter h <> nullptr ->
  heap (memory w) !! deleter h = None ->
  Handle_destroy h w = (Undefined, w).
Proof.
  intros Hd E. unfold Handle_destroy. rewrite bool_decide_eq_true_2 by done.
  unfold bind, load. by rewrite E.
Qed.

(** A live scalar handle: the call returns and frees both objects. *)
Lemma Handle_destroy_scalar h w T :
  deleter h <> nullptr -> ptr h <> nullptr -> ptr h <> deleter h ->
  heap (memory w) !! deleter h = Some (ODeleter false T) ->
  is_a T (ptr h) w = true ->
  Handle_destroy h w = (Return tt, free (deleter h) (free (ptr h) w)).
Proof.
  intros Hd Hp Hne E Ha. unfold Handle_destroy.
  rewrite bool_decide_eq_true_2 by done.
  unfold bind at 1, load. rewrite E. unfold deleter_destroy, bind.
  rewrite (delete_as_live T (ptr h) w Hp Ha).
  unfold delete_. rewrite bool_decide_eq_false_2 by done.
  cbn [free set_memory memory heap]. by rewrite lookup_delete_ne, E by done.
Qed.

(** A collection handle whose cell holds the null pointer: the cell and
    the deleter object are freed. *)
Lemma Handle_destroy_vector_null h w T :
  deleter h <> nullptr -> ptr h <> nullptr -> ptr h <> deleter h ->
  heap (memory w) !! deleter h = Some (ODeleter true T) ->
  heap (memory w) !! ptr h = Some (OPointer nullptr) ->
  dyntype w !! ptr h = Some T ->
  Handle_destroy h w = (Return tt, free (deleter h) (free (ptr h) w)).
Proof.
  intros Hd Hp Hne E Ecell Hty. unfold Handle_destroy.
  rewrite bool_decide_eq_true_2 by done.
  unfold bind at 1, load. rewrite E.
  unfold vec_deleter_destroy, load_pointer, load, bind, ret. rewrite Ecell.
  rewrite (bool_decide_eq_false_2 (nullptr <> nullptr)) by (intros H; by apply H).
  rewrite (delete_as_live T (ptr h) w Hp)
    by (apply is_a_true; [rewrite Ecell; by eexists | exact Hty]).
  unfold delete_. rewrite (bool_decide_eq_false_2 (deleter h = nullptr)) by done.
  cbn [free set_memory memory heap]. by rewrite lookup_delete_ne, E by done.
Qed.

(** A collection handle whose cell points to something that was not
    allocated as a [T]: the first [delete] of the deleter has no defined
    behaviour, and nothing is freed. *)
Lemma Handle_destroy_vector_live h w T q :
  deleter h <> nullptr -> q <> nullptr ->
  heap (memory w) !! deleter h = Some (ODeleter true T) ->
  heap (memory w) !! ptr h = Some (OPointer q) ->
  dyntype w !! q <> Some T ->
  Handle_destroy h w = (Undefined, w).
Proof.
  intros Hd Hq E Ecell Hty. unfold Handle_destroy.
  rewrite bool_decide_eq_true_2 by done.
  unfold bind at 1, load. rewrite E.
  unfold vec_deleter_destroy, load_pointer, load, bind, ret. rewrite Ecell.
  rewrite (bool_decide_eq_true_2 (q <> nullptr)) by done.
  by rewrite (delete_as_mistyped T q w Hq (is_a_other T q w Hty)).
Qed.

(** C7 (amended). [destroy()] on a handle with a bound deleter runs the
    deleter and then frees the deleter object; the handle's [deleter]
    field is not cleared.  A scalar handle over a live object of the
    deleter's type, and a collection handle whose cell holds the null
    pointer, are destroyed by the first call: storage and deleter object
    are freed.  After any returning call the storage and the deleter
    object are gone, and a second call on the same handle goes through
    the dead deleter object: it has undefined behaviour instead of doing
    nothing. *)
Theorem C7_destroy_once_per_call h w :
  deleter h <> nullptr ->
  (forall T, ptr h <> nullptr -> ptr h <> deleter h ->
   heap (memory w) !! deleter h = Some (ODeleter false T) ->
   is_Some (heap (memory w) !! ptr h) ->
   dyntype w !! ptr h = Some T ->
   Handle_destroy h w = (Return tt, free (deleter h) (free (ptr h) w))) /\
  (forall T, ptr h <> nullptr -> ptr h <> deleter h ->
   heap (memory w) !! deleter h = Some (ODeleter true T) ->
   heap (memory w) !! ptr h = Some (OPointer nullptr) ->
   dyntype w !! ptr h = Some T ->
   Handle_destroy h w = (Return tt, free (deleter h) (free (ptr h) w))) /\
  (forall w', Handle_destroy h w = (Return tt, w') ->
     heap (memory w') !! deleter h = None /\
     (ptr h <> nullptr -> heap (memory w') !! ptr h = None) /\
     Handle_destroy h w' = (Undefined, w')).
Proof.
  intros Hd. split; [|split].
  - intros T Hp Hne E Hl Ht. apply Handle_destroy_scalar with T; try done.
    by apply is_a_true.
  - intros T Hp Hne E Ecell Ht. by apply Handle_destroy_vector_null with T.
  - intros w' H. destruct (Handle_destroy_frees h w w' Hd H) as [Hgone Hp].
    split; [exact Hgone|]. split; [exact Hp|].
    by apply Handle_destroy_dangling.
Qed.

Lemma C7_witness :
  deleter Sample.h_count <> nullptr /\
  Handle_destroy Sample.h_count Sample.w_count
  = (Return tt, snd (Handle_destroy Sample.h_count Sample.w_count)) /\
  Handle_destroy Sample.h_count (snd (Handle_destroy Sample.h_count Sample.w_count))
  = (Undefined, snd (Handle_destroy Sample.h_count Sample.w_count)).
Proof.
  assert (Hd : deleter Sample.h_count <> nullptr) by (vm_compute; discriminate).
  assert (H : Handle_destroy Sample.h_count Sample.w_count
              = (Return tt, snd (Handle_destroy Sample.h_count Sample.w_count)))
    by (vm_compute; reflexivity).
  split; [exact Hd|]. split; [exact H|].
  destruct (C7_destroy_once_per_call Sample.h_count Sample.w_count Hd)
    as (_ & _ & Hsecond).
  exact (proj2 (proj2 (Hsecond _ H))).
Defined.

(** C7 as stated fails: the handle of [count] keeps its deleter pointer
    after the first [destroy()], and the second call does not return as a
    call that invokes nothing would. *)
Lemma C7_second_destroy_invokes_dead_deleter :
  branchMap_ (reader Sample.w_count) !! "count" = Some Sample.h_count /\
  fst (Handle_destroy Sample.h_count Sample.w_count) = Return tt /\
  deleter Sample.h_count <> nullptr /\
  fst (Handle_destroy Sample.h_count
         (snd (Handle_destroy Sample.h_count Sample.w_count))) = Undefined.
Proof.
  split; [vm_compute; reflexivity|].
  split; [vm_compute; reflexivity|].
  split; [vm_compute; discriminate|].
  vm_compute; reflexivity.
Qed.

(** ** Typed lookup: the direct path and the mismatch path *)

Lemma resolve_bare s var :
  checkBranch s (prefix_ s +:+ var) = false -> resolve s var = var.
Proof. unfold resolve. by intros ->. Qed.

Lemma resolve_no_prefix s var : prefix_ s = EmptyString -> resolve s var = var.
Proof.
  unfold resolve. intros ->. change (EmptyString +:+ var) with var.
  by destruct (checkBranch s var).
Qed.

Lemma getTupleObj_direct T typen0 var v forceLoad w h :
  deref_tuple v (reader w) !! resolve (reader w) var = Some h ->
  type h = remove_pointer T \/ forceLoad = true ->
  getTupleObj T typen0 var v forceLoad w = (Return (ptr h), w).
Proof.
  intros Hh Hok. unfold getTupleObj, bind, gets, id. rewrite Hh.
  destruct Hok as [->| ->].
  - by rewrite bool_decide_eq_true_2.
  - by rewrite orb_true_r.
Qed.

Lemma getTupleObj_mismatch T typen0 var v w h :
  convertHackActive_ (reader w) = false ->
  deref_tuple v (reader w) !! resolve (reader w) var = Some h ->
  type h <> remove_pointer T ->
  getTupleObj T typen0 var v false w
  = (Throw (mkSATException (not_found_msg T var (typeMap_ (reader w) !! var))), w).
Proof.
  intros Hhack Hh Hty. unfold getTupleObj, bind, gets, id. rewrite Hh, Hhack.
  by rewrite bool_decide_eq_false_2.
Qed.

Lemma accessor_catch_failure e w : accessor_catch e w = accessor_failure e w.
Proof.
  unfold accessor_catch, accessor_failure, bind, gets, id, print, ret, throw.
  by destruct (isFirstEvent (reader w)), (reThrow_ (reader w)).
Qed.

Lemma getVar_throws T typen0 var forceLoad w e w1 :
  getTupleObj T typen0 var ref_branchMap_ forceLoad w = (Throw e, w1) ->
  getVar T typen0 var forceLoad w = accessor_failure e w1.
Proof.
  intros H. unfold getVar, try_catch. rewrite H. apply accessor_catch_failure.
Qed.

Lemma getVec_throws T typen0 var forceLoad w e w1 :
  getTupleObj (pointer_t (vector_t T)) typen0 var ref_branchVecMap_ forceLoad w
  = (Throw e, w1) ->
  getVec T typen0 var forceLoad w = accessor_failure e w1.
Proof.
  intros H. unfold getVec, try_catch, bind. rewrite H. apply accessor_catch_failure.
Qed.

Lemma getMap_throws K V typen0 var w e w1 :
  getTupleObj (pointer_t (map_t K V)) typen0 var ref_branchVecMap_ false w
  = (Throw e, w1) ->
  getMap K V typen0 var w = accessor_failure e w1.
Proof.
  intros H. unfold getMap, try_catch, bind. rewrite H. apply accessor_catch_failure.
Qed.

Lemma load_pointer_cell p q w :
  heap (memory w) !! p = Some (OPointer q) -> load_pointer p w = (Return q, w).
Proof. intros H. unfold load_pointer, bind, load, ret. by rewrite H. Qed.

(** ** C8: the [forceLoad] flag *)

(** C8 (amended). With the flag set, [getVar<T>] on a name whose
    resolved form (the name behind the prefix when the schema knows it,
    the bare name otherwise) is attached in the scalar map returns that
    column's cell for every [T], and [getVec<T>] on a name whose
    resolved form is attached in the collection map returns the
    collection its cell points to; the recorded type tag is never
    consulted and nothing changes. *)
Theorem C8_forceLoad_skips_type_check w T typen0 var h :
  (branchMap_ (reader w) !! resolve (reader w) var = Some h ->
   getVar T typen0 var true w = (Return (ptr h), w)) /\
  (branchVecMap_ (reader w) !! resolve (reader w) var = Some h ->
   forall q, heap (memory w) !! ptr h = Some (OPointer q) ->
             getVec T typen0 var true w = (Return q, w)) /\
  (checkBranch (reader w) (prefix_ (reader w) +:+ var) = false ->
   resolve (reader w) var = var).
Proof.
  split; [|split].
  - intros H. unfold getVar, try_catch.
    by rewrite (getTupleObj_direct T typen0 var ref_branchMap_ true w h H (or_intror eq_refl)).
  - intros H q Hq. unfold getVec, try_catch, bind.
    rewrite (getTupleObj_direct _ typen0 var ref_branchVecMap_ true w h H (or_intror eq_refl)).
    by rewrite (load_pointer_cell _ _ _ Hq).
  - apply resolve_bare.
Qed.

Lemma C8_witness :
  branchMap_ (reader Sample.w_count) !! resolve (reader Sample.w_count) "count"
  = Some Sample.h_count /\
  type Sample.h_count <> float_t /\
  getVar float_t "?"%char "count" true Sample.w_count
  = (Return (ptr Sample.h_count), Sample.w_count).
Proof.
  assert (H : branchMap_ (reader Sample.w_count) !! resolve (reader Sample.w_count) "count"
              = Some Sample.h_count) by (vm_compute; reflexivity).
  split; [exact H|]. split; [vm_compute; discriminate|].
  exact (proj1 (C8_forceLoad_skips_type_check
                  Sample.w_count float_t "?"%char "count" Sample.h_count) H).
Defined.

(** C8 as stated fails behind a prefix: [count] is attached in the scalar
    map as an [int], the prefix is [p_] and the schema knows [p_count]
    (a derived collection), so [getVar<int>("count", true)] looks
    [p_count] up, finds no scalar column and no branch, and yields a
    null reference instead of the cell of [count]. *)
Lemma C8_prefix_hides_attached_column :
  let w := Sample.w_prefixed in
  branchMap_ (reader w) !! "count" = Some Sample.h_count /\
  type Sample.h_count = int_t /\
  heap (memory w) !! ptr Sample.h_count = Some (OValue 1) /\
  prefix_ (reader w) = "p_" /\
  resolve (reader w) "count" = "p_count" /\
  fst (getVar int_t "?"%char "count" true w) = Return nullptr /\
  ptr Sample.h_count <> nullptr /\
  fst (getTupleObj int_t "?"%char "count" ref_branchMap_ true w)
  = Throw (mkSATException (not_found_msg int_t "count" (Some (demangle int_t)))).
Proof.
  cbv zeta.
  split; [vm_compute; reflexivity|].
  split; [vm_compute; reflexivity|].
  split; [vm_compute; reflexivity|].
  split; [vm_compute; reflexivity|].
  split; [vm_compute; reflexivity|].
  split; [vm_compute; reflexivity|].
  split; [vm_compute; discriminate|].
  vm_compute; reflexivity.
Qed.

(** ** C1: a mismatched request without the conversion hack *)




(** ** C6: what a failing accessor does *)

(** C6. When the lookup inside [getVar], [getVec] or [getMap] throws, the
    accessor ends as [accessor_failure] says: with [reThrow_] off it
    returns a reference bound to the null pointer, with [reThrow_] on the
    same exception reaches the caller, and in both cases the exception is
    printed exactly when [evtProcessed_ <= 1]; reader and heap are left
    as the lookup left them. *)
Theorem C6_accessor_failure w e w1 :
  (forall T typen0 var forceLoad,
     getTupleObj T typen0 var ref_branchMap_ forceLoad w = (Throw e, w1) ->
     getVar T typen0 var forceLoad w = accessor_failure e w1) /\
  (forall T typen0 var forceLoad,
     getTupleObj (pointer_t (vector_t T)) typen0 var ref_branchVecMap_ forceLoad w
     = (Throw e, w1) ->
     getVec T typen0 var forceLoad w = accessor_failure e w1) /\
  (forall K V typen0 var,
     getTupleObj (pointer_t (map_t K V)) typen0 var ref_branchVecMap_ false w
     = (Throw e, w1) ->
     getMap K V typen0 var w = accessor_failure e w1) /\
  (reThrow_ (reader w1) = false -> fst (accessor_failure e w1) = Return nullptr) /\
  (reThrow_ (reader w1) = true -> fst (accessor_failure e w1) = Throw e) /\
  (evtProcessed_ (reader w1) <= 1 ->
   printed (snd (accessor_failure e w1)) = (printed w1 ++ [e])%list) /\
  (1 < evtProcessed_ (reader w1) ->
   printed (snd (accessor_failure e w1)) = printed w1) /\
  reader (snd (accessor_failure e w1)) = reader w1 /\
  memory (snd (accessor_failure e w1)) = memory w1.
Proof.
  repeat split.
  - intros. by apply getVar_throws.
  - intros. by apply getVec_throws.
  - intros. by apply getMap_throws.
  - unfold accessor_failure. cbn. by intros ->.
  - unfold accessor_failure. cbn. by intros ->.
  - unfold accessor_failure, isFirstEvent. cbn. intros H.
    apply Z.leb_le in H. by rewrite H.
  - unfold accessor_failure. cbn. intros H. by rewrite (isFirstEvent_false _ H).
  - unfold accessor_failure. cbn. by destruct (isFirstEvent (reader w1)).
  - unfold accessor_failure. cbn. by destruct (isFirstEvent (reader w1)).
Qed.

Lemma C6_witness :
  getTupleObj float_t "?"%char "count" ref_branchMap_ false Sample.w_count
  = (Throw (mkSATException
              (not_found_msg float_t "count" (Some (demangle int_t)))),
     Sample.w_count) /\
  getVar float_t "?"%char "count" false Sample.w_count
  = accessor_failure
      (mkSATException (not_found_msg float_t "count" (Some (demangle int_t))))
      Sample.w_count.
Proof.
  assert (H : getTupleObj float_t "?"%char "count" ref_branchMap_ false Sample.w_count
              = (Throw (mkSATException
                          (not_found_msg float_t "count" (Some (demangle int_t)))),
                 Sample.w_count)) by (vm_compute; reflexivity).
  split; [exact H|].
  exact (proj1 (C6_accessor_failure Sample.w_count _ Sample.w_count)
           float_t "?"%char "count" false H).
Defined.

(** ** C4: the conversion hack *)


Lemma pair_test_false (a b c d : type_index) :
  (a, c) <> (b, d) -> bool_decide (a = b) && bool_decide (c = d) = false.
Proof. intros H. repeat case_bool_decide; try reflexivity. congruence. Qed.

(** Outside the four pairs no assignment fires. *)
Lemma select_typen_other typen0 requested native :
  (requested, native) <> (vector_t float_t, vector_t double_t) ->
  (requested, native) <> (vector_t double_t, vector_t float_t) ->
  (requested, native) <> (vector_t int_t, vector_t unsigned_int_t) ->
  (requested, native) <> (vector_t int_t, vector_t float_t) ->
  select_typen typen0 requested native = typen0.
Proof.
  intros H1 H2 H3 H4. unfold select_typen.
  by rewrite (pair_test_false _ _ _ _ H1), (pair_test_false _ _ _ _ H2),
       (pair_test_false _ _ _ _ H3), (pair_test_false _ _ _ _ H4).
Qed.





(** ** C5: attaching a column on first use *)

Lemma FindBranch_name t name b : FindBranch t name = Some b -> br_name b = name.
Proof.
  unfold FindBranch. intros H. apply find_some in H as [_ H].
  by apply bool_decide_eq_true_1 in H.
Qed.

Lemma registerBranch_run T name w :
  registerBranch T name w = (Return tt, attached false T name w).
Proof.
  unfold registerBranch, attached. run. unfold id, at_. cbn.
  by rewrite lookup_insert_eq.
Qed.

Lemma registerVecBranch_run T name w :
  registerVecBranch T name w = (Return tt, attached true T name w).
Proof.
  unfold registerVecBranch, attached. run. unfold id, at_. cbn.
  by rewrite lookup_insert_eq.
Qed.

Lemma registerBranch_TBranch_run b w :
  registerBranch_TBranch b w
  = (Return tt, attached (br_isvec b) (br_type b) (br_name b) w).
Proof.
  unfold registerBranch_TBranch.
  destruct (br_isvec b); [apply registerVecBranch_run | apply registerBranch_run].
Qed.

Lemma attached_address vec T name w :
  address (tree_ (reader (attached vec T name w))) !! name = Some (brk (memory w)).
Proof. unfold attached. destruct vec; cbn; apply lookup_insert_eq. Qed.

Lemma attached_cell vec T name w :
  heap (memory (attached vec T name w)) !! brk (memory w)
  = Some (if vec then OPointer nullptr else value_init T).
Proof.
  unfold attached. cbn. rewrite lookup_insert_ne by lia. apply lookup_insert_eq.
Qed.

Lemma attached_cell_is_a vec T name w :
  is_a (cell_type vec T) (brk (memory w)) (attached vec T name w) = true.
Proof.
  apply is_a_true.
  - rewrite attached_cell. by eexists.
  - unfold attached. cbn. apply lookup_insert_eq.
Qed.

Lemma GetEvent_attached b w entry :
  TBranch_GetEvent b entry (attached (br_isvec b) (br_type b) (br_name b) w)
  = (Return tt,
     match entry_at b entry with
     | Some o =>
         delivered (br_isvec b) (br_type b) (brk (memory w)) o
           (attached (br_isvec b) (br_type b) (br_name b) w)
     | None => attached (br_isvec b) (br_type b) (br_name b) w
     end).
Proof.
  unfold TBranch_GetEvent, bind at 1, gets, id. rewrite attached_address.
  destruct (entry_at b entry) as [o|]; [|reflexivity].
  pose proof (attached_cell_is_a (br_isvec b) (br_type b) (br_name b) w) as Ha.
  unfold delivered. destruct (br_isvec b) eqn:Hcat; cbn [cell_type] in Ha.
  - unfold bind at 1, load_pointer, bind at 1, load. rewrite attached_cell.
    cbn [ret]. rewrite bool_decide_eq_true_2 by done.
    unfold bind, new_as, store_as.
    match goal with
    | |- context [is_a ?U ?a ?W] =>
        assert (Hc : is_a U a W = true); [|by rewrite Hc]
    end.
    apply is_a_true.
    + cbn [set_dyntype set_memory memory heap brk].
      rewrite lookup_insert_ne by (cbn; lia). rewrite attached_cell. by eexists.
    + cbn [set_dyntype set_memory dyntype memory heap brk attached].
      rewrite lookup_insert_ne by lia. apply lookup_insert_eq.
  - unfold store_as. by rewrite Ha.
Qed.

(** The lazy branch of [getTupleObj], step by step.  A branch of the
    other storage category is attached to the other map, so the second
    [find] on [v_tuple] comes back empty and is dereferenced all the
    same. *)
Lemma getTupleObj_lazy T typen0 var v forceLoad w b :
  let s := reader w in
  let varName := resolve s var in
  deref_tuple v s !! varName = None ->
  is_Some (typeMap_ s !! varName) ->
  FindBranch (tree_ s) varName = Some b ->
  let w1 := attached (br_isvec b) (br_type b) varName w in
  let w2 := match entry_at b (nevt_ s - 1) with
            | Some o => delivered (br_isvec b) (br_type b) (brk (memory w)) o w1
            | None => w1
            end in
  getTupleObj T typen0 var v forceLoad w
  = (if bool_decide (br_isvec b = is_vec v) then
       if bool_decide (attached_type (br_isvec b) (br_type b) = remove_pointer T)
       then Return (brk (memory w))
       else Throw (mkSATException (not_found_msg T var (typeMap_ (reader w2) !! var)))
     else Undefined,
     w2).
Proof.
  intros s varName Hnone Hknown Hb.
  pose proof (FindBranch_name _ _ _ Hb) as Hname.
  cbv zeta. unfold getTupleObj, bind at 1, gets at 1, id. fold s varName.
  rewrite Hnone, bool_decide_eq_true_2, Hb by done.
  unfold bind at 1. rewrite registerBranch_TBranch_run.
  unfold bind at 1, gets at 1, id. unfold bind at 1.
  rewrite GetEvent_attached, Hname.
  set (w1 := attached (br_isvec b) (br_type b) varName w).
  case_bool_decide as Hcat.
  - assert (Hfound : deref_tuple v (reader w1) !! varName
                     = Some (mkHandle (brk (memory w)) (N.succ (brk (memory w)))
                               (attached_type (br_isvec b) (br_type b)))).
    { unfold w1, attached. rewrite Hcat. destruct v; cbn; apply lookup_insert_eq. }
    rewrite Hfound. cbn [type ptr].
    case_bool_decide; [reflexivity|].
    unfold not_found, bind, gets, id, THROW_SATEXCEPTION, throw. reflexivity.
  - assert (Hmiss : deref_tuple v (reader w1) !! varName = None).
    { unfold w1, attached. fold s.
      destruct v, (br_isvec b); try done; cbn; exact Hnone. }
    by rewrite Hmiss.
Qed.

(** A known, unattached name the source has no branch for. *)
Lemma getTupleObj_no_branch T typen0 var v forceLoad w :
  let s := reader w in
  deref_tuple v s !! resolve s var = None ->
  FindBranch (tree_ s) (resolve s var) = None ->
  getTupleObj T typen0 var v forceLoad w
  = (Throw (mkSATException (not_found_msg T var (typeMap_ s !! var))), w).
Proof.
  intros s Hnone Hb. unfold getTupleObj, bind at 1, gets at 1, id. fold s.
  rewrite Hnone, Hb. by case_bool_decide.
Qed.

Lemma delivered_reader vec T p o w : reader (delivered vec T p o w) = reader w.
Proof. unfold delivered. by destruct vec. Qed.







(** ** C3: derived registration under the name of a source column *)

(** The guarded case: the name is known to the schema and not in the
    map, so the registration is refused and nothing is written. *)
Lemma registerDerivedVar_refused T name var w :
  branchMap_ (reader w) !! name = None ->
  is_Some (typeMap_ (reader w) !! name) ->
  registerDerivedVar T name var w
  = (if reThrow_ (reader w) then Throw (mkSATException (redefine_msg name))
     else Return tt,
     set_printed (fun l => (l ++ [mkSATException (redefine_msg name)])%list) w).
Proof.
  intros Hnone Hknown. unfold registerDerivedVar, try_catch, bind at 1, gets at 1, id.
  rewrite Hnone. unfold bind at 1. unfold bind at 1.
  rewrite bool_decide_eq_true_2 by done.
  unfold THROW_SATEXCEPTION, throw, print_and_maybe_rethrow, bind, print, gets, id, ret.
  cbn. by destruct (reThrow_ (reader w)).
Qed.

(** The unguarded case: the name is already in the scalar map, whatever
    put it there, and its cell, when it is a [T], is overwritten. *)
Lemma registerDerivedVar_overwrites T name var w h :
  branchMap_ (reader w) !! name = Some h ->
  is_a T (ptr h) w = true ->
  registerDerivedVar T name var w
  = (Return tt,
     set_memory (fun m => mkMemory (<[ptr h := var]> (heap m)) (brk m)) w).
Proof.
  intros Hh Ha. unfold registerDerivedVar, try_catch, bind at 1, gets at 1, id.
  rewrite Hh. unfold bind, ret, setDerived, store_as. by rewrite Ha.
Qed.

(** C3 (the code at the failing input). [count] and [vals] are columns of
    the source and the reader has attached both.  Registering a derived
    scalar under the name [count] is not refused: nothing is thrown or
    printed and the source column's cell now holds the derived value.
    Registering a derived collection under [vals] likewise frees the
    collection the source delivered and replaces the pointer. *)
Theorem C3_attached_source_column_overwritten :
  let w := Sample.w_both in
  is_Some (FindBranch (tree_ (reader w)) "count") /\
  typeMap_ (reader w) !! "count" = Some (demangle int_t) /\
  branchMap_ (reader w) !! "count" = Some Sample.h_count /\
  heap (memory w) !! ptr Sample.h_count = Some (OValue 1) /\
  registerDerivedVar int_t "count" (OValue 10) w
  = (Return tt,
     set_memory
       (fun m => mkMemory (<[ptr Sample.h_count := OValue 10]> (heap m)) (brk m)) w) /\
  is_Some (FindBranch (tree_ (reader w)) "vals") /\
  branchVecMap_ (reader w) !! "vals" = Some Sample.h_vals /\
  heap (memory w) !! ptr Sample.h_vals = Some (OPointer 5%N) /\
  heap (memory w) !! 5%N = Some (OVector []) /\
  fst (registerDerivedVec (vector_t double_t) "vals" nullptr w) = Return tt /\
  printed (snd (registerDerivedVec (vector_t double_t) "vals" nullptr w)) = printed w /\
  heap (memory (snd (registerDerivedVec (vector_t double_t) "vals" nullptr w)))
    !! ptr Sample.h_vals = Some (OPointer nullptr) /\
  heap (memory (snd (registerDerivedVec (vector_t double_t) "vals" nullptr w)))
    !! 5%N = None.
Proof.
  cbv zeta.
  assert (Hh : branchMap_ (reader Sample.w_both) !! "count" = Some Sample.h_count)
    by (vm_compute; reflexivity).
  assert (Hcell : heap (memory Sample.w_both) !! ptr Sample.h_count = Some (OValue 1))
    by (vm_compute; reflexivity).
  split; [eexists; vm_compute; reflexivity|].
  split; [vm_compute; reflexivity|].
  split; [exact Hh|]. split; [exact Hcell|].
  split.
  { assert (Ha : is_a int_t (ptr Sample.h_count) Sample.w_both = true)
      by (vm_compute; reflexivity).
    exact (registerDerivedVar_overwrites int_t "count" (OValue 10) Sample.w_both
             Sample.h_count Hh Ha). }
  split; [eexists; vm_compute; reflexivity|].
  split; [vm_compute; reflexivity|].
  split; [vm_compute; reflexivity|].
  split; [vm_compute; reflexivity|].
  split; [vm_compute; reflexivity|].
  split; [vm_compute; reflexivity|].
  split; vm_compute; reflexivity.
Qed.

(** ** Worked evaluations *)

(** The type names the schema records and the diagnostics print. *)
Example demangle_names :
  demangle unsigned_int_t = "unsigned int" /\
  demangle (pointer_t TLorentzVector_t) = "TLorentzVector*" /\
  demangle (vector_t double_t) = "std::vector<double, std::allocator<double> >" /\
  demangle (vector_t (vector_t int_t))
  = "std::vector<std::vector<int, std::allocator<int> >, std::allocator<std::vector<int, std::allocator<int> > > >" /\
  demangle string_t
  = "std::__cxx11::basic_string<char, std::char_traits<char>, std::allocator<char> >" /\
  demangle (map_t int_t double_t)
  = "std::map<int, double, std::less<int>, std::allocator<std::pair<int const, double> > >".
Proof. repeat split; reflexivity. Qed.

(** The diagnostic of a mismatched request, character by character. *)
Example mismatch_diagnostic_text :
  not_found_msg (pointer_t (vector_t float_t)) "vals"
    (Some (demangle (vector_t double_t)))
  = "Variable not found: " +:+ dq +:+ "vals" +:+ dq +:+ " with type " +:+ dq +:+
    "std::vector<float, std::allocator<float> >" +:+ dq +:+
    ", but is found with type " +:+ dq +:+
    "std::vector<double, std::allocator<double> >" +:+ dq +:+ "!!!" /\
  not_found_msg int_t "met" None
  = "Variable not found: " +:+ dq +:+ "met" +:+ dq +:+ " with type " +:+ dq +:+
    "int" +:+ dq +:+ "!!!".
Proof. split; reflexivity. Qed.

(** The first row of the sample source: [count] is attached on first use
    and its cell holds the row's value; [vals] likewise, through its
    pointer cell. *)
Example first_row_count :
  fst (getVar int_t "?"%char "count" false Sample.w0) = Return 1%N /\
  heap (memory Sample.w_count) !! 1%N = Some (OValue 1).
Proof. split; vm_compute; reflexivity. Qed.

Example first_row_vals :
  fst (getVec double_t "?"%char "vals" false Sample.w_count) = Return 5%N /\
  heap (memory Sample.w_both) !! 5%N = Some (OVector []).
Proof. split; vm_compute; reflexivity. Qed.

(** With [reThrow_] set the mismatch reaches the caller. *)
Example mismatch_rethrown :
  fst (getVar float_t "?"%char "count" false
         (set_reader (set_reThrow_ true) Sample.w_count))
  = Throw (mkSATException (not_found_msg float_t "count" (Some (demangle int_t)))).
Proof. vm_compute; reflexivity. Qed.

(** A scalar request under the conversion hack: the collection map has
    no [count___?], and the scalar map answers under [___d]. *)
Example scalar_shadow_probe :
  branchMap_ (reader Sample.w_scalar_hack) !! "count___d"
  = Some (mkHandle 3%N 4%N double_t) /\
  getVar double_t "?"%char "count" false Sample.w_scalar_hack
  = (Return 3%N, Sample.w_scalar_hack).
Proof. split; vm_compute; reflexivity. Qed.

(** Behind a prefix the column is found and type-checked under
    [p_count], while the diagnostic looks [count] up in the type map
    and so has no stored type to show. *)
Example prefixed_mismatch_diagnostic :
  resolve (reader Sample.w_prefix) "count" = "p_count" /\
  branchMap_ (reader Sample.w_prefix) !! "p_count" = Some (mkHandle 1%N 2%N int_t) /\
  getTupleObj float_t "?"%char "count" ref_branchMap_ false Sample.w_prefix
  = (Throw (mkSATException (not_found_msg float_t "count" None)), Sample.w_prefix).
Proof. repeat split; vm_compute; reflexivity. Qed.

(** The handle of [vals] once the row source has delivered a
    collection: its deleter was instantiated with the type of the pointer
    cell, so [destroy()] deletes the collection through a pointer to a
    pointer and has no defined behaviour; before the delivery the cell
    is null and the handle is destroyed cleanly. *)
Example attached_collection_destroy :
  heap (memory Sample.w_both) !! deleter Sample.h_vals
  = Some (ODeleter true (pointer_t (vector_t double_t))) /\
  dyntype Sample.w_both !! 5%N = Some (vector_t double_t) /\
  fst (Handle_destroy Sample.h_vals Sample.w_both) = Undefined /\
  fst ((do _ <- registerVecBranch double_t "vals";
        Handle_destroy Sample.h_vals) Sample.w_count) = Return tt.
Proof.
  split; [vm_compute; reflexivity|].
  split; [vm_compute; reflexivity|].
  split; vm_compute; reflexivity.
Qed.

(** A scalar request for a collection branch: the branch is attached to
    the collection map and the scalar map's [end()] is dereferenced. *)
Example cross_category_lookup :
  fst (getVar (vector_t double_t) "?"%char "vals" false Sample.w0) = Undefined /\
  is_Some (branchVecMap_
             (reader (snd (getVar (vector_t double_t) "?"%char "vals" false Sample.w0)))
           !! "vals").
Proof. split; [vm_compute; reflexivity | eexists; vm_compute; reflexivity]. Qed.

(** ** Beyond the claims: ownership *)

Lemma allocator_ok_fresh m a :
  allocator_ok m -> (brk m <= a)%N -> heap m !! a = None.
Proof.
  intros [_ H] Ha. destruct (heap m !! a) as [o|] eqn:E; [|reflexivity].
  apply (map_Forall_lookup_1 _ _ _ _ H) in E. lia.
Qed.

Lemma heap_restored_2 (m : gmap addr object) p o1 o2 :
  m !! p = None -> m !! N.succ p = None ->
  delete (N.succ p) (delete p (<[N.succ p := o2]> (<[p := o1]> m))) = m.
Proof.
  intros H1 H2. apply map_eq. intros i.
  rewrite !lookup_delete, !lookup_insert.
  repeat case_decide; subst; try done; try lia.
Qed.

Lemma world_eta w : mkWorld (reader w) (memory w) (printed w) (dyntype w) = w.
Proof. by destruct w. Qed.

Lemma free_two_new T o d w :
  allocator_ok (memory w) ->
  free (N.succ (brk (memory w))) (free (brk (memory w)) (two_new T o d w))
  = set_dyntype <[brk (memory w) := T]> (bump 2 w).
Proof.
  intros Hok. unfold free, two_new, bump, set_memory, set_dyntype. cbn.
  rewrite heap_restored_2 by (apply allocator_ok_fresh; [done | lia]).
  do 2 f_equal. f_equal. lia.
Qed.

Lemma two_new_cell T o d w :
  is_a T (brk (memory w)) (two_new T o d w) = true.
Proof.
  apply is_a_true; unfold two_new; cbn.
  - rewrite lookup_insert_ne by lia. rewrite lookup_insert_eq. by eexists.
  - apply lookup_insert_eq.
Qed.

Lemma create_destroy_scalar T w :
  allocator_ok (memory w) ->
  (do p <- new_as T (value_init T); do h <- createHandle T p; Handle_destroy h) w
  = (Return tt, set_dyntype <[brk (memory w) := T]> (bump 2 w)).
Proof.
  intros Hok. pose proof Hok as [Hnz _].
  change ((do p <- new_as T (value_init T); do h <- createHandle T p;
           Handle_destroy h) w)
    with (Handle_destroy (mkHandle (brk (memory w)) (N.succ (brk (memory w))) T)
            (two_new T (value_init T) (ODeleter false T) w)).
  rewrite (Handle_destroy_scalar _ _ T); cbn [ptr deleter].
  - by rewrite free_two_new.
  - unfold nullptr. lia.
  - done.
  - lia.
  - unfold two_new. cbn. apply lookup_insert_eq.
  - apply two_new_cell.
Qed.

Lemma create_destroy_vector_empty U w :
  allocator_ok (memory w) ->
  (do p <- new_as (pointer_t U) (value_init (pointer_t U));
   do h <- createVecHandle (pointer_t U) p;
   Handle_destroy h) w
  = (Return tt, set_dyntype <[brk (memory w) := pointer_t U]> (bump 2 w)).
Proof.
  intros Hok. pose proof Hok as [Hnz _].
  change ((do p <- new_as (pointer_t U) (value_init (pointer_t U));
           do h <- createVecHandle (pointer_t U) p; Handle_destroy h) w)
    with (Handle_destroy (mkHandle (brk (memory w)) (N.succ (brk (memory w))) U)
            (two_new (pointer_t U) (OPointer nullptr) (ODeleter true (pointer_t U)) w)).
  rewrite (Handle_destroy_vector_null _ _ (pointer_t U)); cbn [ptr deleter].
  - by rewrite free_two_new.
  - unfold nullptr. lia.
  - done.
  - lia.
  - unfold two_new. cbn. apply lookup_insert_eq.
  - unfold two_new. cbn. rewrite lookup_insert_ne by lia. apply lookup_insert_eq.
  - unfold two_new. cbn. apply lookup_insert_eq.
Qed.

(** ** Beyond the claims: derived columns *)

Lemma derived_cell vec tag C tyname init name w :
  heap (memory (derived vec tag C tyname init name w)) !! brk (memory w) = Some init.
Proof.
  unfold derived. cbn. rewrite lookup_insert_ne by lia. apply lookup_insert_eq.
Qed.

Lemma derived_cell_is_a vec tag C tyname init name w :
  is_a C (brk (memory w)) (derived vec tag C tyname init name w) = true.
Proof.
  apply is_a_true.
  - rewrite derived_cell. by eexists.
  - unfold derived. cbn. apply lookup_insert_eq.
Qed.

Lemma registerDerivedVar_fresh T name var w :
  branchMap_ (reader w) !! name = None ->
  typeMap_ (reader w) !! name = None ->
  registerDerivedVar T name var w
  = (Return tt,
     written (brk (memory w)) var
       (derived false T T (demangle T) (value_init T) name w)).
Proof.
  intros Hnone Hunknown.
  assert (Hk : ~ is_Some (typeMap_ (reader w) !! name))
    by (rewrite Hunknown; by intros [? ?]).
  unfold registerDerivedVar, try_catch, bind at 1, gets at 1, id.
  rewrite Hnone. unfold bind at 1. unfold bind at 1.
  rewrite bool_decide_eq_false_2 by done.
  unfold ret at 1. unfold bind at 1, new_as at 1.
  unfold bind at 1, createHandle at 1, bind at 1, new at 1, ret at 1.
  unfold bind at 1, modify at 1. unfold bind at 1, modify at 1. unfold ret at 1.
  unfold setDerived, store_as. cbn [ptr].
  match goal with
  | |- context [is_a _ _ ?W] =>
      change W with (derived false T T (demangle T) (value_init T) name w)
  end.
  by rewrite derived_cell_is_a.
Qed.

Lemma registerDerivedVec_fresh T name var w :
  branchVecMap_ (reader w) !! name = None ->
  typeMap_ (reader w) !! name = None ->
  registerDerivedVec T name var w
  = (Return tt,
     written (brk (memory w)) (OPointer var)
       (derived true T (pointer_t T) (demangle T) (OPointer nullptr) name w)).
Proof.
  intros Hnone Hunknown.
  assert (Hk : ~ is_Some (typeMap_ (reader w) !! name))
    by (rewrite Hunknown; by intros [? ?]).
  unfold registerDerivedVec, try_catch, bind at 1, gets at 1, id.
  rewrite Hnone. unfold bind at 1. unfold bind at 1.
  rewrite bool_decide_eq_false_2 by done.
  unfold ret at 1. unfold bind at 1, new_as at 1.
  unfold bind at 1, createVecHandle at 1, bind at 1, new at 1, ret at 1.
  unfold bind at 1, modify at 1. unfold bind at 1, modify at 1. unfold ret at 1.
  unfold bind at 1, load_pointer, bind at 1, load. cbn [ptr].
  match goal with
  | |- context [heap (memory ?W) !! _] =>
      change W with (derived true T (pointer_t T) (demangle T) (OPointer nullptr) name w)
  end.
  rewrite derived_cell. unfold ret at 1.
  rewrite (bool_decide_eq_false_2 (nullptr <> nullptr)) by (intros H; by apply H).
  unfold bind, ret, setDerived, store_as. by rewrite derived_cell_is_a.
Qed.

Lemma registerDerivedVec_replaces T name q2 w h q1 :
  branchVecMap_ (reader w) !! name = Some h ->
  heap (memory w) !! ptr h = Some (OPointer q1) ->
  dyntype w !! ptr h = Some (pointer_t T) ->
  q1 <> nullptr -> q1 <> ptr h ->
  is_Some (heap (memory w) !! q1) -> dyntype w !! q1 = Some T ->
  registerDerivedVec T name q2 w
  = (Return tt, written (ptr h) (OPointer q2) (free q1 w)).
Proof.
  intros Hh Hcell Hcty Hq Hne Hlive Hqty.
  unfold registerDerivedVec, try_catch, bind at 1, gets at 1, id.
  rewrite Hh. unfold bind at 1, ret at 1.
  unfold bind at 1, load_pointer, bind at 1, load. rewrite Hcell. unfold ret at 1.
  rewrite (bool_decide_eq_true_2 (q1 <> nullptr)) by done.
  unfold bind. rewrite (delete_as_live T q1 w Hq) by by apply is_a_true.
  unfold setDerived, store_as. rewrite is_a_free_ne by done.
  rewrite is_a_true; [reflexivity | rewrite Hcell; by eexists | exact Hcty].
Qed.

Lemma registerDerivedVec_fills T name q2 w h :
  branchVecMap_ (reader w) !! name = Some h ->
  heap (memory w) !! ptr h = Some (OPointer nullptr) ->
  dyntype w !! ptr h = Some (pointer_t T) ->
  registerDerivedVec T name q2 w = (Return tt, written (ptr h) (OPointer q2) w).
Proof.
  intros Hh Hcell Hcty.
  unfold registerDerivedVec, try_catch, bind at 1, gets at 1, id.
  rewrite Hh. unfold bind at 1, ret at 1.
  unfold bind at 1, load_pointer, bind at 1, load. rewrite Hcell. unfold ret at 1.
  rewrite (bool_decide_eq_false_2 (nullptr <> nullptr)) by (intros H; by apply H).
  unfold bind, ret, setDerived, store_as.
  rewrite is_a_true; [reflexivity | rewrite Hcell; by eexists | exact Hcty].
Qed.

(** Registering through a cell whose collection is already dead. *)
Lemma registerDerivedVec_dead_payload T name q2 w h q1 :
  branchVecMap_ (reader w) !! name = Some h ->
  heap (memory w) !! ptr h = Some (OPointer q1) ->
  q1 <> nullptr -> heap (memory w) !! q1 = None ->
  registerDerivedVec T name q2 w = (Undefined, w).
Proof.
  intros Hh Hcell Hq Hdead.
  unfold registerDerivedVec, try_catch, bind at 1, gets at 1, id.
  rewrite Hh. unfold bind at 1, ret at 1.
  unfold bind at 1, load_pointer, bind at 1, load. rewrite Hcell. unfold ret at 1.
  rewrite (bool_decide_eq_true_2 (q1 <> nullptr)) by done.
  unfold bind. by rewrite (delete_as_mistyped T q1 w Hq (is_a_dead T q1 w Hdead)).
Qed.

(** After a derived column was created under a name the schema did not
    know, lookups of that name resolve to it. *)
Lemma resolve_after_insert s name ty :
  typeMap_ s !! (prefix_ s +:+ name) = None ->
  resolve (set_typeMap_ <[name := ty]> s) name = name.
Proof.
  intros H. unfold resolve, checkBranch. cbn.
  destruct (decide (prefix_ s +:+ name = name)) as [E|E].
  - rewrite E. by case_bool_decide.
  - rewrite lookup_insert_ne by done. rewrite H.
    rewrite bool_decide_eq_false_2; [done|]. by intros [? ?].
Qed.

(** X1. A derived scalar of a non-pointer type registered under a name
    that is new to the schema (and whose prefixed form is unknown as
    well) can be read back:
    the registration returns without printing, the name is known from
    then on, and [getVar<T>] on it returns the new cell, which holds the
    registered value, without changing anything. *)
Theorem X1_registerDerivedVar_then_getVar T typen0 name var w :
  remove_pointer T = T ->
  branchMap_ (reader w) !! name = None ->
  typeMap_ (reader w) !! name = None ->
  typeMap_ (reader w) !! (prefix_ (reader w) +:+ name) = None ->
  let r := registerDerivedVar T name var w in
  fst r = Return tt /\
  printed (snd r) = printed w /\
  hasVar (reader (snd r)) name = true /\
  getVar T typen0 name false (snd r) = (Return (brk (memory w)), snd r) /\
  heap (memory (snd r)) !! brk (memory w) = Some var.
Proof.
  intros HT Hnone Hunknown Hprefix r. unfold r.
  rewrite (registerDerivedVar_fresh T name var w Hnone Hunknown). cbn [fst snd].
  split; [reflexivity|]. split; [reflexivity|]. split; [|split].
  - unfold hasVar, checkBranch, written, derived. cbn.
    rewrite lookup_insert_eq. apply bool_decide_eq_true_2. by eexists.
  - unfold getVar, try_catch.
    rewrite (getTupleObj_direct T typen0 name ref_branchMap_ false _
               (mkHandle (brk (memory w)) (N.succ (brk (memory w))) T)); [reflexivity| |].
    + unfold written, derived. cbn [reader set_memory deref_tuple].
      rewrite resolve_after_insert by exact Hprefix. cbn. apply lookup_insert_eq.
    + left. cbn. by rewrite HT.
  - unfold written. cbn. apply lookup_insert_eq.
Qed.

Lemma X1_witness :
  branchMap_ (reader Sample.w_count) !! "total" = None /\
  typeMap_ (reader Sample.w_count) !! "total" = None /\
  getVar int_t "?"%char "total" false
    (snd (registerDerivedVar int_t "total" (OValue 10) Sample.w_count))
  = (Return (brk (memory Sample.w_count)),
     snd (registerDerivedVar int_t "total" (OValue 10) Sample.w_count)).
Proof.
  assert (H1 : branchMap_ (reader Sample.w_count) !! "total" = None)
    by (vm_compute; reflexivity).
  assert (H2 : typeMap_ (reader Sample.w_count) !! "total" = None)
    by (vm_compute; reflexivity).
  assert (H3 : typeMap_ (reader Sample.w_count)
               !! (prefix_ (reader Sample.w_count) +:+ "total") = None)
    by (vm_compute; reflexivity).
  split; [exact H1|]. split; [exact H2|].
  destruct (X1_registerDerivedVar_then_getVar int_t "?"%char "total" (OValue 10)
              Sample.w_count eq_refl H1 H2 H3) as (_ & _ & _ & Hget & _).
  exact Hget.
Defined.

(** Overwriting a cell keeps every live object what it is. *)
Lemma is_a_written T p q o w : is_a T p w = true -> is_a T p (written q o w) = true.
Proof.
  intros H. apply is_a_true.
  - unfold written. cbn. destruct (decide (q = p)) as [->|Hne].
    + rewrite lookup_insert_eq. by eexists.
    + rewrite lookup_insert_ne by done. by apply is_a_live with T.
  - unfold is_a in H. apply andb_true_iff in H as [_ H].
    by apply bool_decide_eq_true_1 in H.
Qed.

(** X2. Registering a derived scalar again under the same name and the
    same type writes the new value into the cell the first registration
    created: no new storage, and the handle and the recorded type name
    stay those of the first call.  Two registrations in a row leave the
    machine as one registration of the last value does. *)
Theorem X2_registerDerivedVar_last_write_wins T name v1 v2 w :
  branchMap_ (reader w) !! name = None ->
  typeMap_ (reader w) !! name = None ->
  (do _ <- registerDerivedVar T name v1; registerDerivedVar T name v2) w
  = registerDerivedVar T name v2 w /\
  fst (registerDerivedVar T name v2 w) = Return tt /\
  heap (memory (snd (registerDerivedVar T name v2 w))) !! brk (memory w) = Some v2.
Proof.
  intros Hnone Hunknown. unfold bind.
  rewrite !(registerDerivedVar_fresh T name _ w Hnone Hunknown).
  split; [|split; [reflexivity | unfold written; cbn; apply lookup_insert_eq]].
  rewrite (registerDerivedVar_overwrites T name v2 _
             (mkHandle (brk (memory w)) (N.succ (brk (memory w))) T)).
  - unfold written, set_memory. cbn. by rewrite insert_insert_eq.
  - unfold written, derived. cbn. apply lookup_insert_eq.
  - cbn [ptr]. apply is_a_written, derived_cell_is_a.
Qed.

Lemma X2_witness :
  branchMap_ (reader Sample.w_count) !! "total" = None /\
  typeMap_ (reader Sample.w_count) !! "total" = None /\
  (do _ <- registerDerivedVar int_t "total" (OValue 10);
   registerDerivedVar int_t "total" (OValue 20)) Sample.w_count
  = registerDerivedVar int_t "total" (OValue 20) Sample.w_count.
Proof.
  assert (H1 : branchMap_ (reader Sample.w_count) !! "total" = None)
    by (vm_compute; reflexivity).
  assert (H2 : typeMap_ (reader Sample.w_count) !! "total" = None)
    by (vm_compute; reflexivity).
  split; [exact H1|]. split; [exact H2|].
  destruct (X2_registerDerivedVar_last_write_wins int_t "total"
              (OValue 10) (OValue 20) Sample.w_count H1 H2) as (Heq & _).
  exact Heq.
Defined.

(** What replacing a live payload leaves behind. *)
Lemma registerDerivedVec_replaces_facts T name q2 w h q1 :
  branchVecMap_ (reader w) !! name = Some h ->
  heap (memory w) !! ptr h = Some (OPointer q1) ->
  dyntype w !! ptr h = Some (pointer_t T) ->
  q1 <> nullptr -> q1 <> ptr h ->
  is_Some (heap (memory w) !! q1) -> dyntype w !! q1 = Some T ->
  let r := registerDerivedVec T name q2 w in
  fst r = Return tt /\
  reader (snd r) = reader w /\
  printed (snd r) = printed w /\
  heap (memory (snd r)) !! q1 = None /\
  heap (memory (snd r)) !! ptr h = Some (OPointer q2) /\
  (forall a, a <> q1 -> a <> ptr h ->
             heap (memory (snd r)) !! a = heap (memory w) !! a).
Proof.
  intros Hh Hcell Hcty Hq Hne Hlive Hqty r. unfold r.
  rewrite (registerDerivedVec_replaces T name q2 w h q1 Hh Hcell Hcty Hq Hne Hlive Hqty).
  cbn [fst snd]. repeat split; try reflexivity.
  - unfold written, free. cbn. rewrite lookup_insert_ne by done. apply lookup_delete_eq.
  - unfold written. cbn. apply lookup_insert_eq.
  - intros a Ha1 Ha2. unfold written, free. cbn.
    by rewrite lookup_insert_ne, lookup_delete_ne by done.
Qed.

(** X3. Registering a derived collection of type [T] under a name whose
    cell is a pointer to [T] and holds a live collection of type [T]
    deletes that collection and stores the pointer handed over: the old
    collection is gone, the cell points to the new one, every other cell
    and the reader's maps are as before, and [getVec] on the name (when
    it resolves to itself and the tag is the requested collection type)
    returns the new pointer, null included. *)
Theorem X3_registerDerivedVec_replaces_payload T name q2 w h q1 :
  branchVecMap_ (reader w) !! name = Some h ->
  heap (memory w) !! ptr h = Some (OPointer q1) ->
  dyntype w !! ptr h = Some (pointer_t T) ->
  q1 <> nullptr -> q1 <> ptr h ->
  is_Some (heap (memory w) !! q1) -> dyntype w !! q1 = Some T ->
  let r := registerDerivedVec T name q2 w in
  fst r = Return tt /\
  reader (snd r) = reader w /\
  printed (snd r) = printed w /\
  heap (memory (snd r)) !! q1 = None /\
  heap (memory (snd r)) !! ptr h = Some (OPointer q2) /\
  (forall a, a <> q1 -> a <> ptr h ->
             heap (memory (snd r)) !! a = heap (memory w) !! a) /\
  (forall U typen0, resolve (reader w) name = name -> type h = vector_t U ->
     getVec U typen0 name false (snd r) = (Return q2, snd r)).
Proof.
  intros Hh Hcell Hcty Hq Hne Hlive Hqty r.
  destruct (registerDerivedVec_replaces_facts T name q2 w h q1
              Hh Hcell Hcty Hq Hne Hlive Hqty)
    as (Hret & Hrd & Hpr & Hdead & Hnew & Hframe).
  fold r in Hret, Hrd, Hpr, Hdead, Hnew, Hframe.
  split; [exact Hret|]. split; [exact Hrd|]. split; [exact Hpr|].
  split; [exact Hdead|]. split; [exact Hnew|]. split; [exact Hframe|].
  intros U typen0 Hres Hty. unfold getVec, try_catch, bind.
  rewrite (getTupleObj_direct (pointer_t (vector_t U)) typen0 name ref_branchVecMap_
             false _ h).
  - by rewrite (load_pointer_cell _ _ _ Hnew).
  - rewrite Hrd. cbn [deref_tuple]. by rewrite Hres.
  - left. exact Hty.
Qed.

Lemma X3_witness :
  branchVecMap_ (reader Sample.w_both) !! "vals" = Some Sample.h_vals /\
  heap (memory Sample.w_both) !! ptr Sample.h_vals = Some (OPointer 5%N) /\
  dyntype Sample.w_both !! 5%N = Some (vector_t double_t) /\
  getVec double_t "?"%char "vals" false
    (snd (registerDerivedVec (vector_t double_t) "vals" nullptr Sample.w_both))
  = (Return nullptr,
     snd (registerDerivedVec (vector_t double_t) "vals" nullptr Sample.w_both)).
Proof.
  assert (H1 : branchVecMap_ (reader Sample.w_both) !! "vals" = Some Sample.h_vals)
    by (vm_compute; reflexivity).
  assert (H2 : heap (memory Sample.w_both) !! ptr Sample.h_vals = Some (OPointer 5%N))
    by (vm_compute; reflexivity).
  assert (H2t : dyntype Sample.w_both !! ptr Sample.h_vals
                = Some (pointer_t (vector_t double_t))) by (vm_compute; reflexivity).
  assert (H3 : 5%N <> nullptr) by (vm_compute; discriminate).
  assert (H4 : 5%N <> ptr Sample.h_vals) by (vm_compute; discriminate).
  assert (H5 : is_Some (heap (memory Sample.w_both) !! 5%N))
    by (eexists; vm_compute; reflexivity).
  assert (H5t : dyntype Sample.w_both !! 5%N = Some (vector_t double_t))
    by (vm_compute; reflexivity).
  split; [exact H1|]. split; [exact H2|]. split; [exact H5t|].
  destruct (X3_registerDerivedVec_replaces_payload (vector_t double_t) "vals" nullptr
              Sample.w_both Sample.h_vals 5%N H1 H2 H2t H3 H4 H5 H5t)
    as (_ & _ & _ & _ & _ & _ & Hget).
  refine (Hget double_t "?"%char _ eq_refl). vm_compute; reflexivity.
Defined.

(** X4. Handing a derived collection column of type [T] the very pointer
    its cell already holds deletes the collection and stores the pointer
    again: the call returns, nothing is printed, and the cell now points
    to dead memory; the next registration under that name deletes the
    dead collection a second time, which is undefined. *)
Theorem X4_registerDerivedVec_same_pointer_dangles T name w h q :
  branchVecMap_ (reader w) !! name = Some h ->
  heap (memory w) !! ptr h = Some (OPointer q) ->
  dyntype w !! ptr h = Some (pointer_t T) ->
  q <> nullptr -> q <> ptr h ->
  is_Some (heap (memory w) !! q) -> dyntype w !! q = Some T ->
  let r := registerDerivedVec T name q w in
  fst r = Return tt /\
  printed (snd r) = printed w /\
  heap (memory (snd r)) !! ptr h = Some (OPointer q) /\
  heap (memory (snd r)) !! q = None /\
  (forall T' q', registerDerivedVec T' name q' (snd r) = (Undefined, snd r)).
Proof.
  intros Hh Hcell Hcty Hq Hne Hlive Hqty.
  destruct (registerDerivedVec_replaces_facts T name q w h q
              Hh Hcell Hcty Hq Hne Hlive Hqty)
    as (Hret & Hrd & Hpr & Hdead & Hnew & _).
  cbv zeta. split; [exact Hret|]. split; [exact Hpr|].
  split; [exact Hnew|]. split; [exact Hdead|].
  intros T' q'. apply registerDerivedVec_dead_payload with h q; try done.
  by rewrite Hrd.
Qed.

Lemma X4_witness :
  branchVecMap_ (reader Sample.w_both) !! "vals" = Some Sample.h_vals /\
  heap (memory Sample.w_both) !! ptr Sample.h_vals = Some (OPointer 5%N) /\
  dyntype Sample.w_both !! 5%N = Some (vector_t double_t) /\
  fst (registerDerivedVec (vector_t double_t) "vals" 5%N Sample.w_both) = Return tt /\
  heap (memory (snd (registerDerivedVec (vector_t double_t) "vals" 5%N Sample.w_both)))
    !! 5%N = None.
Proof.
  assert (H1 : branchVecMap_ (reader Sample.w_both) !! "vals" = Some Sample.h_vals)
    by (vm_compute; reflexivity).
  assert (H2 : heap (memory Sample.w_both) !! ptr Sample.h_vals = Some (OPointer 5%N))
    by (vm_compute; reflexivity).
  assert (H2t : dyntype Sample.w_both !! ptr Sample.h_vals
                = Some (pointer_t (vector_t double_t))) by (vm_compute; reflexivity).
  assert (H3 : 5%N <> nullptr) by (vm_compute; discriminate).
  assert (H4 : 5%N <> ptr Sample.h_vals) by (vm_compute; discriminate).
  assert (H5 : is_Some (heap (memory Sample.w_both) !! 5%N))
    by (eexists; vm_compute; reflexivity).
  assert (H5t : dyntype Sample.w_both !! 5%N = Some (vector_t double_t))
    by (vm_compute; reflexivity).
  split; [exact H1|]. split; [exact H2|]. split; [exact H5t|].
  destruct (X4_registerDerivedVec_same_pointer_dangles (vector_t double_t) "vals"
              Sample.w_both Sample.h_vals 5%N H1 H2 H2t H3 H4 H5 H5t)
    as (Hret & _ & _ & Hdead & _).
  split; [exact Hret | exact Hdead].
Defined.

Lemma pointer_t_neq U : pointer_t U <> U.
Proof. induction U; intros H; try discriminate. injection H. exact IHU. Qed.

(** X5. A derived scalar of pointer type cannot be read back under its
    own type: the handle is tagged with the pointer type, while
    [getVar<T>] compares the tag with the pointee type.  With the
    conversion hack off the lookup throws, naming the pointee type as
    requested and the pointer type as found; only [forceLoad] gets the
    cell. *)
Theorem X5_pointer_typed_scalar_mismatch U typen0 name var w :
  convertHackActive_ (reader w) = false ->
  branchMap_ (reader w) !! name = None ->
  typeMap_ (reader w) !! name = None ->
  typeMap_ (reader w) !! (prefix_ (reader w) +:+ name) = None ->
  let w' := snd (registerDerivedVar (pointer_t U) name var w) in
  getTupleObj (pointer_t U) typen0 name ref_branchMap_ false w'
  = (Throw (mkSATException
              (not_found_msg (pointer_t U) name (Some (demangle (pointer_t U))))),
     w') /\
  getVar (pointer_t U) typen0 name true w' = (Return (brk (memory w)), w').
Proof.
  intros Hhack Hnone Hunknown Hprefix w'. unfold w'.
  rewrite (registerDerivedVar_fresh (pointer_t U) name var w Hnone Hunknown).
  cbn [snd].
  set (h := mkHandle (brk (memory w)) (N.succ (brk (memory w))) (pointer_t U)).
  set (w1 := written _ _ _).
  assert (Hh : deref_tuple ref_branchMap_ (reader w1) !! resolve (reader w1) name = Some h).
  { unfold w1, written, derived. cbn [reader set_memory deref_tuple].
    rewrite resolve_after_insert by exact Hprefix. cbn. apply lookup_insert_eq. }
  assert (Hres : resolve (reader w1) name = name).
  { unfold w1, written, derived. cbn [reader set_memory].
    by apply resolve_after_insert. }
  split.
  - rewrite (getTupleObj_mismatch (pointer_t U) typen0 name ref_branchMap_ w1 h);
      [| exact Hhack | exact Hh | apply pointer_t_neq].
    assert (Htm : typeMap_ (reader w1) !! name = Some (demangle (pointer_t U)))
      by (unfold w1, written, derived; cbn [reader set_memory typeMap_ set_typeMap_];
          apply lookup_insert_eq).
    by rewrite Htm.
  - unfold getVar, try_catch.
    by rewrite (getTupleObj_direct (pointer_t U) typen0 name ref_branchMap_ true w1 h Hh
                  (or_intror eq_refl)).
Qed.

Lemma X5_witness :
  convertHackActive_ (reader Sample.w_count) = false /\
  branchMap_ (reader Sample.w_count) !! "cursor" = None /\
  getVar (pointer_t int_t) "?"%char "cursor" true
    (snd (registerDerivedVar (pointer_t int_t) "cursor" (OPointer 1%N) Sample.w_count))
  = (Return (brk (memory Sample.w_count)),
     snd (registerDerivedVar (pointer_t int_t) "cursor" (OPointer 1%N) Sample.w_count)).
Proof.
  assert (H0 : convertHackActive_ (reader Sample.w_count) = false)
    by (vm_compute; reflexivity).
  assert (H1 : branchMap_ (reader Sample.w_count) !! "cursor" = None)
    by (vm_compute; reflexivity).
  assert (H2 : typeMap_ (reader Sample.w_count) !! "cursor" = None)
    by (vm_compute; reflexivity).
  assert (H3 : typeMap_ (reader Sample.w_count)
               !! (prefix_ (reader Sample.w_count) +:+ "cursor") = None)
    by (vm_compute; reflexivity).
  split; [exact H0|]. split; [exact H1|].
  exact (proj2 (X5_pointer_typed_scalar_mismatch int_t "?"%char "cursor" (OPointer 1%N)
                  Sample.w_count H0 H1 H2 H3)).
Defined.

Lemma allocator_ok_live m a :
  allocator_ok m -> is_Some (heap m !! a) -> (a < brk m)%N.
Proof. intros [_ H] [o E]. exact (map_Forall_lookup_1 _ _ _ _ H E). Qed.

Lemma derived_vec_destroy T name q w :
  allocator_ok (memory w) ->
  branchVecMap_ (reader w) !! name = None ->
  typeMap_ (reader w) !! name = None ->
  q <> nullptr -> is_Some (heap (memory w) !! q) -> dyntype w !! q = Some T ->
  let p := brk (memory w) in
  let h := mkHandle p (N.succ p) T in
  let w' := snd (registerDerivedVec T name q w) in
  branchVecMap_ (reader w') !! name = Some h /\
  heap (memory w') !! N.succ p = Some (ODeleter true (pointer_t T)) /\
  heap (memory w') !! p = Some (OPointer q) /\
  Handle_destroy h w' = (Undefined, w').
Proof.
  intros Hok Hnone Hunknown Hq Hlive Hqty p h w'.
  pose proof Hok as [Hnz _].
  pose proof (allocator_ok_live _ _ Hok Hlive) as Hlt. fold p in Hlt, Hnz.
  unfold w'. rewrite (registerDerivedVec_fresh T name q w Hnone Hunknown). cbn [snd].
  fold p. set (w1 := written p (OPointer q) _).
  assert (Hd : heap (memory w1) !! N.succ p = Some (ODeleter true (pointer_t T))).
  { unfold w1, written, derived. cbn. fold p.
    rewrite lookup_insert_ne by lia. apply lookup_insert_eq. }
  assert (Hc : heap (memory w1) !! p = Some (OPointer q)).
  { unfold w1, written. cbn. apply lookup_insert_eq. }
  split; [|split; [exact Hd|split; [exact Hc|]]].
  - unfold w1, written, derived. cbn. apply lookup_insert_eq.
  - apply (Handle_destroy_vector_live h w1 (pointer_t T) q); cbn [ptr deleter h];
      try done.
    + unfold nullptr in *. lia.
    + unfold w1, written, derived. cbn. fold p.
      rewrite lookup_insert_ne by lia. rewrite Hqty.
      intros [= E]. symmetry in E. by apply pointer_t_neq in E.
Qed.

(** X6. What the reader allocates, [destroy()] gives back, as long as the
    collection cell is empty.  On a heap where [new] has been the only
    allocator, creating a scalar handle or an empty collection handle and
    destroying it leaves every cell as it was.  The handle of a freshly
    registered derived collection carries a collection deleter
    instantiated with the type of the pointer cell, so destroying it
    while the cell holds the collection that was handed over deletes
    that collection through a pointer to a pointer: the call has
    undefined behaviour. *)
Theorem X6_created_handles_destroy_cleanly w :
  allocator_ok (memory w) ->
  (forall T,
     (do p <- new_as T (value_init T); do h <- createHandle T p; Handle_destroy h) w
     = (Return tt, set_dyntype <[brk (memory w) := T]> (bump 2 w))) /\
  (forall U,
     (do p <- new_as (pointer_t U) (value_init (pointer_t U));
      do h <- createVecHandle (pointer_t U) p;
      Handle_destroy h) w
     = (Return tt, set_dyntype <[brk (memory w) := pointer_t U]> (bump 2 w))) /\
  (forall T name q,
     branchVecMap_ (reader w) !! name = None ->
     typeMap_ (reader w) !! name = None ->
     q <> nullptr -> is_Some (heap (memory w) !! q) -> dyntype w !! q = Some T ->
     let p := brk (memory w) in
     let h := mkHandle p (N.succ p) T in
     let w' := snd (registerDerivedVec T name q w) in
     branchVecMap_ (reader w') !! name = Some h /\
     heap (memory w') !! N.succ p = Some (ODeleter true (pointer_t T)) /\
     heap (memory w') !! p = Some (OPointer q) /\
     Handle_destroy h w' = (Undefined, w')).
Proof.
  intros Hok. split; [|split].
  - intros T. by apply create_destroy_scalar.
  - intros U. by apply create_destroy_vector_empty.
  - intros T name q. by apply derived_vec_destroy.
Qed.

Lemma X6_witness :
  allocator_ok (memory Sample.w_both) /\
  (do p <- new_as int_t (value_init int_t); do h <- createHandle int_t p;
   Handle_destroy h) Sample.w_both
  = (Return tt, set_dyntype <[brk (memory Sample.w_both) := int_t]> (bump 2 Sample.w_both)).
Proof.
  assert (H : allocator_ok (memory Sample.w_both))
    by (apply (bool_decide_unpack _); vm_compute; exact I).
  split; [exact H|].
  exact (proj1 (X6_created_handles_destroy_cleanly Sample.w_both H) int_t).
Defined.

(** ** Beyond the claims: the pipeline list *)

Lemma registerFunction_run f w :
  evtProcessed_ (reader w) <= 1 ->
  registerFunction f w
  = (Return tt,
     set_reader (set_functionVec_ (fun l => (l ++ [brk (memory w)])%list))
       (set_memory
          (fun m => mkMemory (<[brk m := OFuncWrapper f]> (heap m)) (N.succ (brk m)))
          w)).
Proof.
  intros H. unfold registerFunction, isFirstEvent, bind at 1, gets, id.
  apply Z.leb_le in H. rewrite H. reflexivity.
Qed.

Lemma register_all_first_event fs : forall w,
  evtProcessed_ (reader w) <= 1 ->
  let r := register_all fs w in
  fst r = Return tt /\
  reader (snd r)
  = set_functionVec_
      (fun l => (l ++ fresh_run (brk (memory w)) (List.length fs))%list) (reader w) /\
  (forall a, (a < brk (memory w))%N ->
             heap (memory (snd r)) !! a = heap (memory w) !! a) /\
  (forall i f, fs !! i = Some f ->
     heap (memory (snd r)) !! (brk (memory w) + N.of_nat i)%N = Some (OFuncWrapper f)).
Proof.
  induction fs as [|f fs IH]; intros w Hfirst; cbn [register_all List.length fresh_run].
  - cbn. split; [reflexivity|]. split; [|split].
    + destruct (reader w). unfold set_functionVec_. cbn. by rewrite app_nil_r.
    + reflexivity.
    + intros i f Hi. by rewrite lookup_nil in Hi.
  - unfold bind. rewrite (registerFunction_run f w Hfirst).
    set (w1 := set_reader _ _).
    destruct (IH w1 Hfirst) as (Hret & Hrd & Hframe & Hat).
    change (brk (memory w1)) with (N.succ (brk (memory w))) in *.
    split; [exact Hret|]. split; [|split].
    + rewrite Hrd. unfold w1, set_functionVec_. cbn. by rewrite <- app_assoc.
    + intros a Ha. rewrite Hframe by lia. unfold w1. cbn.
      by rewrite lookup_insert_ne by lia.
    + intros [|i] g Hi.
      * cbn in Hi. injection Hi as ->. rewrite N.add_0_r.
        rewrite Hframe by lia. unfold w1. cbn. apply lookup_insert_eq.
      * cbn in Hi. specialize (Hat i g Hi).
        replace (brk (memory w) + N.of_nat (S i))%N
          with (N.succ (brk (memory w)) + N.of_nat i)%N by lia.
        exact Hat.
Qed.

(** X7. During the first event, registering a list of callables one
    after the other always succeeds and appends one wrapper per callable
    to the pipeline list, in registration order and behind the entries
    already there; nothing else in the reader and no existing cell
    changes, and calling through the i-th new entry runs the i-th
    callable.  After the first event the first registration throws and
    nothing is registered. *)
Theorem X7_registration_order fs w :
  (evtProcessed_ (reader w) <= 1 ->
   let r := register_all fs w in
   fst r = Return tt /\
   reader (snd r)
   = set_functionVec_
       (fun l => (l ++ fresh_run (brk (memory w)) (List.length fs))%list) (reader w) /\
   (forall a, (a < brk (memory w))%N ->
              heap (memory (snd r)) !! a = heap (memory w) !! a) /\
   (forall call i f, fs !! i = Some f ->
      FuncWrapper_call call (brk (memory w) + N.of_nat i)%N (snd r)
      = FuncWrapperImpl_call call f (snd r))) /\
  (1 < evtProcessed_ (reader w) -> fs <> [] ->
   register_all fs w = (Throw (mkSATException past_init_msg), w)).
Proof.
  split.
  - intros Hfirst.
    destruct (register_all_first_event fs w Hfirst) as (Hret & Hrd & Hframe & Hat).
    cbv zeta. split; [exact Hret|]. split; [exact Hrd|]. split; [exact Hframe|].
    intros call i f Hi. apply FuncWrapper_call_dispatch. by apply Hat.
  - intros Hpast Hne. destruct fs as [|f fs]; [done|].
    cbn [register_all]. unfold bind. by rewrite (registerFunction_past_init f w Hpast).
Qed.

Lemma X7_witness :
  evtProcessed_ (reader Sample.w_count) <= 1 /\
  functionVec_ (reader (snd (register_all [0%nat; 1%nat] Sample.w_count)))
  = (functionVec_ (reader Sample.w_count)
       ++ fresh_run (brk (memory Sample.w_count)) 2)%list.
Proof.
  assert (H : evtProcessed_ (reader Sample.w_count) <= 1)
    by (vm_compute; discriminate).
  split; [exact H|].
  destruct (proj1 (X7_registration_order [0%nat; 1%nat] Sample.w_count) H)
    as (_ & Hrd & _).
  exact (f_equal functionVec_ Hrd).
Defined.

(** ** Beyond the claims: lookups *)


Lemma getTupleObj_unknown_name T typen0 var v forceLoad w :
  deref_tuple v (reader w) !! resolve (reader w) var = None ->
  typeMap_ (reader w) !! resolve (reader w) var = None ->
  getTupleObj T typen0 var v forceLoad w
  = (Throw (mkSATException (not_found_msg T var (typeMap_ (reader w) !! var))), w).
Proof.
  intros Hnone Hunknown. unfold getTupleObj, bind at 1, gets at 1, id.
  rewrite Hnone, Hunknown. rewrite bool_decide_eq_false_2; [reflexivity|].
  by intros [? ?].
Qed.


(** Attaching a column the schema already knows does not change which
    names are known. *)
Lemma checkBranch_attached vec T name w j :
  is_Some (typeMap_ (reader w) !! name) ->
  checkBranch (reader (attached vec T name w)) j = checkBranch (reader w) j.
Proof.
  intros Hk. unfold checkBranch, attached. cbn.
  destruct (decide (name = j)) as [->|Hne].
  - rewrite lookup_insert_eq. destruct vec; cbn;
      rewrite !bool_decide_eq_true_2; try done; by eexists.
  - rewrite lookup_insert_ne by done. by destruct vec.
Qed.

Lemma resolve_attached vec T name w var :
  is_Some (typeMap_ (reader w) !! name) ->
  resolve (reader (attached vec T name w)) var = resolve (reader w) var.
Proof.
  intros Hk. unfold resolve.
  assert (Hp : prefix_ (reader (attached vec T name w)) = prefix_ (reader w))
    by (unfold attached; by destruct vec).
  by rewrite Hp, checkBranch_attached.
Qed.

(** X8. A name the schema does not know, neither bare nor behind the
    prefix, is never found: on a store whose attached columns are all
    typed, every lookup of it throws the diagnostic without a stored
    type and changes nothing, whatever the requested type, the map, the
    [forceLoad] flag and the conversion hack; the three accessors end as
    [accessor_failure] says. *)
Theorem X8_unknown_name_lookup w var :
  columns_typed (reader w) ->
  hasVar (reader w) var = false ->
  hasVar (reader w) (prefix_ (reader w) +:+ var) = false ->
  (forall T typen0 v forceLoad,
     getTupleObj T typen0 var v forceLoad w
     = (Throw (mkSATException (not_found_msg T var None)), w)) /\
  (forall T typen0 forceLoad,
     getVar T typen0 var forceLoad w
     = accessor_failure (mkSATException (not_found_msg T var None)) w) /\
  (forall T typen0 forceLoad,
     getVec T typen0 var forceLoad w
     = accessor_failure
         (mkSATException (not_found_msg (pointer_t (vector_t T)) var None)) w) /\
  (forall K V typen0,
     getMap K V typen0 var w
     = accessor_failure
         (mkSATException (not_found_msg (pointer_t (map_t K V)) var None)) w).
Proof.
  intros Htyped Hvar Hpre.
  assert (Hres : resolve (reader w) var = var) by by apply resolve_bare.
  assert (Hunk : typeMap_ (reader w) !! var = None).
  { unfold hasVar, checkBranch in Hvar. apply bool_decide_eq_false_1 in Hvar.
    destruct (typeMap_ (reader w) !! var); [|reflexivity]. exfalso. apply Hvar. by eexists. }
  assert (Hget : forall T typen0 v forceLoad,
            getTupleObj T typen0 var v forceLoad w
            = (Throw (mkSATException (not_found_msg T var None)), w)).
  { intros T typen0 v forceLoad.
    rewrite getTupleObj_unknown_name; rewrite ?Hres; [by rewrite Hunk| |exact Hunk].
    apply not_elem_of_dom. intros Hin. apply not_elem_of_dom in Hunk. apply Hunk.
    apply Htyped. destruct v; cbn in Hin; [by apply elem_of_union_l | by apply elem_of_union_r]. }
  split; [exact Hget|]. split; [|split].
  - intros. apply getVar_throws, Hget.
  - intros. apply getVec_throws, Hget.
  - intros. apply getMap_throws, Hget.
Qed.

Lemma X8_witness :
  columns_typed (reader Sample.w_count) /\
  hasVar (reader Sample.w_count) "met" = false /\
  getVar double_t "?"%char "met" true Sample.w_count
  = accessor_failure (mkSATException (not_found_msg double_t "met" None)) Sample.w_count.
Proof.
  assert (H1 : columns_typed (reader Sample.w_count))
    by (apply (bool_decide_unpack _); vm_compute; exact I).
  assert (H2 : hasVar (reader Sample.w_count) "met" = false)
    by (vm_compute; reflexivity).
  assert (H3 : hasVar (reader Sample.w_count)
                 (prefix_ (reader Sample.w_count) +:+ "met") = false)
    by (vm_compute; reflexivity).
  split; [exact H1|]. split; [exact H2|].
  destruct (X8_unknown_name_lookup Sample.w_count "met" H1 H2 H3) as (_ & Hvar & _).
  exact (Hvar double_t "?"%char true).
Defined.

(** X9. A lookup that attached its column on first use and returned a
    reference has left the column where every later lookup finds it:
    the handle of the fresh cell is in the accessor's map under the
    resolved name, tagged with the requested type, the name still
    resolves the same way, and the lookup repeated on that state returns
    the same reference and changes nothing, whatever the uninitialised
    suffix variable holds then and whatever [forceLoad] says. *)
Theorem X9_successful_lookup_repeats T typen0 typen1 var v forceLoad forceLoad' w a w' :
  deref_tuple v (reader w) !! resolve (reader w) var = None ->
  getTupleObj T typen0 var v forceLoad w = (Return a, w') ->
  a = brk (memory w) /\
  resolve (reader w') var = resolve (reader w) var /\
  deref_tuple v (reader w') !! resolve (reader w) var
  = Some (mkHandle a (N.succ a) (remove_pointer T)) /\
  getTupleObj T typen1 var v forceLoad' w' = (Return a, w') /\
  (v = ref_branchMap_ -> getVar T typen1 var forceLoad' w' = (Return a, w')) /\
  (forall U, v = ref_branchVecMap_ -> T = pointer_t (vector_t U) ->
     getVec U typen1 var forceLoad' w' = load_pointer a w').
Proof.
  intros Hh Hrun.
  destruct (typeMap_ (reader w) !! resolve (reader w) var) as [ty|] eqn:Hk.
  2: { by rewrite getTupleObj_unknown_name in Hrun. }
  destruct (FindBranch (tree_ (reader w)) (resolve (reader w) var)) as [b|] eqn:Hb.
  2: { by rewrite getTupleObj_no_branch in Hrun. }
  rewrite (getTupleObj_lazy T typen0 var v forceLoad w b Hh (mk_is_Some _ _ Hk) Hb)
    in Hrun.
  case_bool_decide as Hcat; [|discriminate].
  case_bool_decide as Hty; [|discriminate].
  injection Hrun as <- <-.
  set (w1 := attached (br_isvec b) (br_type b) (resolve (reader w) var) w).
  set (w2 := match entry_at b _ with Some o => _ | None => _ end).
  assert (Hrd : reader w2 = reader w1)
    by (unfold w2; destruct (entry_at b _); [apply delivered_reader | reflexivity]).
  assert (Hres : resolve (reader w2) var = resolve (reader w) var)
    by (rewrite Hrd; unfold w1; rewrite resolve_attached; [done | by eexists]).
  assert (Hfound : deref_tuple v (reader w2) !! resolve (reader w) var
                   = Some (mkHandle (brk (memory w)) (N.succ (brk (memory w)))
                             (remove_pointer T))).
  { rewrite Hrd, <- Hty. unfold w1, attached. rewrite Hcat.
    destruct v; cbn; apply lookup_insert_eq. }
  assert (Hagain : getTupleObj T typen1 var v forceLoad' w2 = (Return (brk (memory w)), w2)).
  { apply getTupleObj_direct
      with (h := mkHandle (brk (memory w)) (N.succ (brk (memory w))) (remove_pointer T)).
    - by rewrite Hres.
    - by left. }
  split; [reflexivity|]. split; [exact Hres|]. split; [exact Hfound|].
  split; [exact Hagain|]. split.
  - intros ->. unfold getVar, try_catch. by rewrite Hagain.
  - intros U -> ->. unfold getVec, try_catch, bind. rewrite Hagain.
    unfold load_pointer, bind, load, ret, undefined.
    by destruct (heap (memory w2) !! brk (memory w)) as [[]|].
Qed.

Lemma X9_witness :
  deref_tuple ref_branchMap_ (reader Sample.w0) !! resolve (reader Sample.w0) "count"
  = None /\
  getTupleObj int_t "?"%char "count" ref_branchMap_ false Sample.w0
  = (Return 1%N, Sample.w_count) /\
  getTupleObj int_t "f"%char "count" ref_branchMap_ true Sample.w_count
  = (Return 1%N, Sample.w_count).
Proof.
  assert (H0 : deref_tuple ref_branchMap_ (reader Sample.w0)
               !! resolve (reader Sample.w0) "count" = None)
    by (vm_compute; reflexivity).
  assert (H : getTupleObj int_t "?"%char "count" ref_branchMap_ false Sample.w0
              = (Return 1%N, Sample.w_count)) by (vm_compute; reflexivity).
  split; [exact H0|]. split; [exact H|].
  destruct (X9_successful_lookup_repeats int_t "?"%char "f"%char "count" ref_branchMap_
              false true Sample.w0 1%N Sample.w_count H0 H) as (_ & _ & _ & Hagain & _).
  exact Hagain.
Defined.










(** X11. Once a prefix is set and the schema knows the prefixed name,
    the bare name is out of reach of the typed lookups: the prefixed
    column is the one returned when it is attached under the requested
    type, and when it is neither in the requested map nor a branch of
    the source the lookup throws, whether or not a column is attached
    under the bare name and whatever [forceLoad] says. *)
Theorem X11_prefix_shadows_bare_name pre T typen0 var v forceLoad w :
  hasVar (reader w) (pre +:+ var) = true ->
  let w' := snd (setPrefix pre w) in
  fst (setPrefix pre w) = Return tt /\
  resolve (reader w') var = pre +:+ var /\
  (forall h, deref_tuple v (reader w) !! (pre +:+ var) = Some h ->
             type h = remove_pointer T ->
             getTupleObj T typen0 var v forceLoad w' = (Return (ptr h), w')) /\
  (deref_tuple v (reader w) !! (pre +:+ var) = None ->
   FindBranch (tree_ (reader w)) (pre +:+ var) = None ->
   getTupleObj T typen0 var v forceLoad w'
   = (Throw (mkSATException (not_found_msg T var (typeMap_ (reader w) !! var))), w')).
Proof.
  intros Hknown w'.
  assert (Hres : resolve (reader w') var = pre +:+ var).
  { unfold w', setPrefix, modify, resolve. cbn.
    change (checkBranch (set_prefix_ pre (reader w)) (pre +:+ var))
      with (checkBranch (reader w) (pre +:+ var)).
    unfold hasVar in Hknown. by rewrite Hknown. }
  assert (Hmaps : deref_tuple v (reader w') = deref_tuple v (reader w))
    by by destruct v.
  split; [reflexivity|]. split; [exact Hres|]. split.
  - intros h Hh Hty. apply getTupleObj_direct; [|by left].
    by rewrite Hres, Hmaps.
  - intros Hnone Hb.
    rewrite getTupleObj_no_branch; [reflexivity| |].
    + by rewrite Hres, Hmaps.
    + by rewrite Hres.
Qed.

Lemma X11_witness :
  hasVar (reader w_p_count) ("p_" +:+ "count") = true /\
  branchMap_ (reader w_p_count) !! "count" = Some Sample.h_count /\
  fst (getTupleObj int_t "?"%char "count" ref_branchMap_ true
         (snd (setPrefix "p_" w_p_count)))
  = Throw (mkSATException
             (not_found_msg int_t "count" (typeMap_ (reader w_p_count) !! "count"))).
Proof.
  assert (H : hasVar (reader w_p_count) ("p_" +:+ "count") = true)
    by (vm_compute; reflexivity).
  assert (H1 : deref_tuple ref_branchMap_ (reader w_p_count) !! ("p_" +:+ "count") = None)
    by (vm_compute; reflexivity).
  assert (H2 : FindBranch (tree_ (reader w_p_count)) ("p_" +:+ "count") = None)
    by (vm_compute; reflexivity).
  split; [exact H|]. split; [vm_compute; reflexivity|].
  destruct (X11_prefix_shadows_bare_name "p_" int_t "?"%char "count" ref_branchMap_
              true w_p_count H) as (_ & _ & _ & Hthrow).
  exact (f_equal fst (Hthrow H1 H2)).
Defined.

(** ** Beyond the claims: [updateTupleVar] *)

Lemma created_by_update_cell T name w :
  is_a T (brk (memory w)) (created_by_update T name w) = true.
Proof.
  apply is_a_true; unfold created_by_update; cbn.
  - rewrite lookup_insert_ne by lia. rewrite lookup_insert_eq. by eexists.
  - apply lookup_insert_eq.
Qed.

Lemma updateTupleVar_creates T name var w :
  branchMap_ (reader w) !! name = None ->
  evtProcessed_ (reader w) <= 1 ->
  updateTupleVar T name var w
  = (Return tt, written (brk (memory w)) var (created_by_update T name w)).
Proof.
  intros Hnone Hfirst. apply Z.leb_le in Hfirst.
  unfold updateTupleVar, bind at 1, gets at 1, id, isFirstEvent.
  rewrite Hfirst, Hnone. rewrite bool_decide_eq_true_2 by done. cbn [andb].
  unfold bind at 1. unfold bind at 1, new_as at 1.
  unfold bind at 1, createVecHandle at 1, bind at 1, new at 1, ret at 1.
  unfold bind at 1, modify at 1. unfold modify at 1.
  unfold bind, gets, id. cbn [fst snd].
  match goal with
  | |- context [branchMap_ (reader ?W) !! _] =>
      change W with (created_by_update T name w)
  end.
  assert (Hh : branchMap_ (reader (created_by_update T name w)) !! name
               = Some (mkHandle (brk (memory w)) (N.succ (brk (memory w)))
                         (remove_pointer T)))
    by (unfold created_by_update; cbn; apply lookup_insert_eq).
  rewrite Hh. unfold store_as. cbn [ptr].
  by rewrite created_by_update_cell.
Qed.

Lemma updateTupleVar_writes T name var w h :
  branchMap_ (reader w) !! name = Some h ->
  is_a T (ptr h) w = true ->
  updateTupleVar T name var w = (Return tt, written (ptr h) var w).
Proof.
  intros Hh Ha.
  unfold updateTupleVar, bind at 1, gets at 1, id.
  rewrite Hh. rewrite (bool_decide_eq_false_2 (Some h = None)) by done.
  rewrite andb_false_r. unfold bind, ret, gets, id. cbn [fst snd].
  rewrite Hh. unfold store_as. by rewrite Ha.
Qed.

Lemma updateTupleVar_missing T name var w :
  branchMap_ (reader w) !! name = None ->
  1 < evtProcessed_ (reader w) ->
  updateTupleVar T name var w
  = (Throw (mkSATException
              ("Variable not found: " +:+ dq +:+ name +:+ dq +:+ "!!!" +:+ nl)), w).
Proof.
  intros Hnone Hpast.
  unfold updateTupleVar, bind at 1, gets at 1, id.
  rewrite (isFirstEvent_false _ Hpast). cbn [andb].
  unfold bind, ret, gets, id. cbn [fst snd]. by rewrite Hnone.
Qed.

(** X12. [updateTupleVar<T>] writes into the scalar column of that name
    when there is one and its cell is a live [T], at any time and
    without looking at the handle's type tag.  When there is none it
    creates the column only during the first event, without asking
    whether the schema already knows the name (the type name recorded
    for it is replaced), and from the second event on it throws and
    changes nothing. *)
Theorem X12_updateTupleVar_by_window T name var w :
  (forall h, branchMap_ (reader w) !! name = Some h ->
             is_Some (heap (memory w) !! ptr h) ->
             dyntype w !! ptr h = Some T ->
             updateTupleVar T name var w = (Return tt, written (ptr h) var w)) /\
  (branchMap_ (reader w) !! name = None -> evtProcessed_ (reader w) <= 1 ->
   let r := updateTupleVar T name var w in
   fst r = Return tt /\
   branchMap_ (reader (snd r)) !! name
   = Some (mkHandle (brk (memory w)) (N.succ (brk (memory w))) (remove_pointer T)) /\
   typeMap_ (reader (snd r)) !! name = Some (demangle T) /\
   heap (memory (snd r)) !! brk (memory w) = Some var /\
   heap (memory (snd r)) !! N.succ (brk (memory w)) = Some (ODeleter true T)) /\
  (branchMap_ (reader w) !! name = None -> 1 < evtProcessed_ (reader w) ->
   updateTupleVar T name var w
   = (Throw (mkSATException
               ("Variable not found: " +:+ dq +:+ name +:+ dq +:+ "!!!" +:+ nl)), w)).
Proof.
  split; [|split].
  - intros h Hh Hl Ht. apply updateTupleVar_writes; [exact Hh | by apply is_a_true].
  - intros Hnone Hfirst r. unfold r.
    rewrite (updateTupleVar_creates T name var w Hnone Hfirst). cbn [fst snd].
    split; [reflexivity|]. unfold written, created_by_update. cbn.
    split; [apply lookup_insert_eq|]. split; [apply lookup_insert_eq|].
    split; [apply lookup_insert_eq|].
    rewrite lookup_insert_ne by lia. apply lookup_insert_eq.
  - apply updateTupleVar_missing.
Qed.

Lemma X12_witness :
  branchMap_ (reader Sample.w_row3) !! "weight" = None /\
  1 < evtProcessed_ (reader Sample.w_row3) /\
  updateTupleVar double_t "weight" (OValue 1) Sample.w_row3
  = (Throw (mkSATException
              ("Variable not found: " +:+ dq +:+ "weight" +:+ dq +:+ "!!!" +:+ nl)),
     Sample.w_row3).
Proof.
  assert (H1 : branchMap_ (reader Sample.w_row3) !! "weight" = None)
    by (vm_compute; reflexivity).
  assert (H2 : 1 < evtProcessed_ (reader Sample.w_row3)) by (vm_compute; reflexivity).
  split; [exact H1|]. split; [exact H2|].
  destruct (X12_updateTupleVar_by_window double_t "weight" (OValue 1) Sample.w_row3)
    as (_ & _ & Hthrow).
  exact (Hthrow H1 H2).
Defined.

(** A collection deleter run on a cell that does not hold a pointer. *)
Lemma Handle_destroy_not_a_pointer h w T o :
  deleter h <> nullptr ->
  heap (memory w) !! deleter h = Some (ODeleter true T) ->
  heap (memory w) !! ptr h = Some o ->
  (forall q, o <> OPointer q) ->
  Handle_destroy h w = (Undefined, w).
Proof.
  intros Hd E Ecell Ho. unfold Handle_destroy.
  rewrite bool_decide_eq_true_2 by done.
  unfold bind at 1, load. rewrite E.
  unfold vec_deleter_destroy, load_pointer, load, bind, undefined. rewrite Ecell.
  destruct o as [z|q|xs|d U|f]; try reflexivity. by destruct (Ho q).
Qed.

(** X13. The column [updateTupleVar<T>] creates is a scalar cell guarded
    by a collection deleter.  Unless the value last written to it is a
    pointer, destroying its handle reads the cell as a pointer to a
    collection and has undefined behaviour; nothing is freed. *)
Theorem X13_updateTupleVar_handle_destroy T name var w :
  branchMap_ (reader w) !! name = None ->
  evtProcessed_ (reader w) <= 1 ->
  (forall q, var <> OPointer q) ->
  let w' := snd (updateTupleVar T name var w) in
  let h := mkHandle (brk (memory w)) (N.succ (brk (memory w))) (remove_pointer T) in
  branchMap_ (reader w') !! name = Some h /\
  Handle_destroy h w' = (Undefined, w').
Proof.
  intros Hnone Hfirst Hvar w' h. unfold w'.
  rewrite (updateTupleVar_creates T name var w Hnone Hfirst). cbn [snd].
  set (w1 := written _ _ _).
  assert (Hd : heap (memory w1) !! N.succ (brk (memory w)) = Some (ODeleter true T)).
  { unfold w1, written, created_by_update. cbn.
    rewrite lookup_insert_ne by lia. apply lookup_insert_eq. }
  assert (Hc : heap (memory w1) !! brk (memory w) = Some var)
    by (unfold w1, written; cbn; apply lookup_insert_eq).
  split.
  - unfold w1, written, created_by_update. cbn. apply lookup_insert_eq.
  - apply Handle_destroy_not_a_pointer with T var; try done.
    cbn. unfold nullptr. lia.
Qed.

Lemma X13_witness :
  branchMap_ (reader Sample.w_count) !! "weight" = None /\
  evtProcessed_ (reader Sample.w_count) <= 1 /\
  fst (Handle_destroy
         (mkHandle (brk (memory Sample.w_count)) (N.succ (brk (memory Sample.w_count)))
            (remove_pointer double_t))
         (snd (updateTupleVar double_t "weight" (OValue 1) Sample.w_count)))
  = Undefined.
Proof.
  assert (H1 : branchMap_ (reader Sample.w_count) !! "weight" = None)
    by (vm_compute; reflexivity).
  assert (H2 : evtProcessed_ (reader Sample.w_count) <= 1) by (vm_compute; discriminate).
  assert (H3 : forall q, OValue 1 <> OPointer q) by (intros q; discriminate).
  split; [exact H1|]. split; [exact H2|].
  exact (f_equal fst
           (proj2 (X13_updateTupleVar_handle_destroy double_t "weight" (OValue 1)
                     Sample.w_count H1 H2 H3))).
Defined.

(** ** Beyond the claims: the suffix of a scalar request *)

Lemma select_typen_scalar typen0 requested native :
  (forall e, requested <> vector_t e) ->
  select_typen typen0 requested native = typen0.
Proof.
  intros Hscalar. unfold select_typen.
  rewrite !(bool_decide_eq_false_2 (requested = vector_t _)) by apply Hscalar.
  reflexivity.
Qed.

(** X14. None of the four suffix assignments fires for a request whose
    type is not a collection, so under the conversion hack a mismatched
    scalar request probes the collection map with whatever the
    uninitialised [typen] holds: if a collection column happens to be
    attached under the resolved name followed by [___] and that
    character, its cell is returned for the scalar request, before the
    scalar suffixes [d], [f], [i] are tried. *)
Theorem X14_scalar_request_probes_stale_suffix w T typen0 var h :
  (forall e, remove_pointer T <> vector_t e) ->
  convertHackActive_ (reader w) = true ->
  branchMap_ (reader w) !! resolve (reader w) var = Some h ->
  type h <> remove_pointer T ->
  select_typen typen0 (remove_pointer T) (type h) = typen0 /\
  (forall h',
     branchVecMap_ (reader w) !! shadow (resolve (reader w) var) typen0 = Some h' ->
     getTupleObj T typen0 var ref_branchMap_ false w = (Return (ptr h'), w) /\
     getVar T typen0 var false w = (Return (ptr h'), w)).
Proof.
  intros Hscalar Hhack Hh Hty.
  pose proof (select_typen_scalar typen0 _ (type h) Hscalar) as Hsel.
  split; [exact Hsel|]. intros h' Hhit.
  assert (Hrun : getTupleObj T typen0 var ref_branchMap_ false w = (Return (ptr h'), w)).
  { unfold getTupleObj, bind at 1, gets at 1, id. cbn [deref_tuple].
    rewrite Hh, Hhack. rewrite bool_decide_eq_false_2 by done. cbn [orb].
    by rewrite Hsel, Hhit. }
  split; [exact Hrun|]. unfold getVar, try_catch. by rewrite Hrun.
Qed.

Lemma X14_witness :
  convertHackActive_ (reader Sample.w_hack) = true /\
  branchMap_ (reader Sample.w_hack) !! resolve (reader Sample.w_hack) "count"
  = Some Sample.h_count /\
  select_typen "f"%char (remove_pointer float_t) (type Sample.h_count) = "f"%char.
Proof.
  assert (H0 : forall e, remove_pointer float_t <> vector_t e) by (intros e; discriminate).
  assert (H1 : convertHackActive_ (reader Sample.w_hack) = true)
    by (vm_compute; reflexivity).
  assert (H2 : branchMap_ (reader Sample.w_hack) !! resolve (reader Sample.w_hack) "count"
               = Some Sample.h_count) by (vm_compute; reflexivity).
  assert (H3 : type Sample.h_count <> remove_pointer float_t)
    by (vm_compute; discriminate).
  split; [exact H1|]. split; [exact H2|].
  exact (proj1 (X14_scalar_request_probes_stale_suffix Sample.w_hack float_t "f"%char
                  "count" Sample.h_count H0 H1 H2 H3)).
Defined.

(** ** Beyond the claims: the conversion hack on first use *)




